(** * weeklyDigestOnAI: fetch, analyse, report

  A shallow embedding of the digest pipeline
  ([src/config.py], [src/exa_fetcher.py], [src/llm_analyzer.py],
  [src/report_generator.py], [main.py]) and the properties of its
  specification.

  Python values are modelled as follows.
  - [str] is a list of Unicode code points, so that [len] and slicing
    count characters, as Python does, and not bytes.
  - A dict used as a record (a fetched item, the bundle, the date range)
    is a record whose fields are options: [None] is an absent key, which
    is what [dict.get(key, default)] tests.
  - An attribute probed with [hasattr] is an option as well; a value
    typed [Optional[T]] by the client library is an option inside.
  - The search client, the completion client and the clock are the
    environment: functions of the number of calls made so far, so that
    two calls with the same arguments may answer differently.
  - Effects (printing, network calls, clock reads, raised exceptions)
    live in the monad [M] over the state [World]. *)

From Stdlib Require Import String Ascii Decimal DecimalNat.
From Stdlib Require Import List NArith ZArith Arith Lia Bool QArith.
Import ListNotations.
Close Scope Q_scope.

Set Implicit Arguments.

(** ** Python strings *)

Module PyStr.

Definition char := N.
Definition str := list char.

(** An ASCII literal of the source. *)
Definition lit (s : string) : str :=
  map N_of_ascii (list_ascii_of_string s).

Definition nl : str := [10%N].

(** [sep.join(xs)] *)
Fixpoint join (sep : str) (xs : list str) : str :=
  match xs with
  | [] => []
  | x :: rest =>
      match rest with
      | [] => x
      | _ :: _ => x ++ sep ++ join sep rest
      end
  end.

(** A triple-quoted literal, line by line. *)
Definition text (lines : list str) : str := join nl lines.

(** [s[:n]] *)
Definition slice_to (n : nat) (s : str) : str := firstn n s.

(** Truth value of a string that may be [None]. *)
Definition truthy (o : option str) : bool :=
  match o with
  | Some (_ :: _) => true
  | _ => false
  end.

(** [o or default] *)
Definition or_else (o : option str) (default : str) : str :=
  if truthy o then match o with Some s => s | None => default end
  else default.

(** [f"{v}"] for a value that is a string or [None]. *)
Definition fmt (o : option str) : str :=
  match o with
  | Some s => s
  | None => lit "None"
  end.

(** [str(n)] for a non-negative integer. *)
Fixpoint str_of_uint (d : Decimal.uint) : str :=
  match d with
  | Nil => []
  | D0 d => 48%N :: str_of_uint d
  | D1 d => 49%N :: str_of_uint d
  | D2 d => 50%N :: str_of_uint d
  | D3 d => 51%N :: str_of_uint d
  | D4 d => 52%N :: str_of_uint d
  | D5 d => 53%N :: str_of_uint d
  | D6 d => 54%N :: str_of_uint d
  | D7 d => 55%N :: str_of_uint d
  | D8 d => 56%N :: str_of_uint d
  | D9 d => 57%N :: str_of_uint d
  end.

Definition str_of_nat (n : nat) : str := str_of_uint (Nat.to_uint n).

Definition char_eqb (a b : char) : bool := N.eqb a b.

Fixpoint startswith (p s : str) : bool :=
  match p, s with
  | [], _ => true
  | _ :: _, [] => false
  | a :: p', b :: s' => char_eqb a b && startswith p' s'
  end.

(** [s.replace(old, new)] for a non-empty [old]: occurrences are taken
    from the left and do not overlap.  [skip] counts the characters of
    an occurrence already replaced. *)
Fixpoint replace_from (old new : str) (skip : nat) (s : str) : str :=
  match s with
  | [] => []
  | c :: s' =>
      match skip with
      | S k => replace_from old new k s'
      | O =>
          if startswith old s
          then new ++ replace_from old new (length old - 1) s'
          else c :: replace_from old new 0 s'
      end
  end.

Definition replace (old new s : str) : str := replace_from old new 0 s.

(** [s.split(sep)] for a one-character separator. *)
Fixpoint split_on (sep : char) (cur : str) (s : str) : list str :=
  match s with
  | [] => [rev cur]
  | c :: s' =>
      if char_eqb c sep then rev cur :: split_on sep [] s'
      else split_on sep (c :: cur) s'
  end.

Definition split (sep : char) (s : str) : list str := split_on sep [] s.

End PyStr.
Import PyStr.

(** ** The data model: fetched items and the bundle *)

Module Data.

(** A fetched item, a dict with string keys. The three categories fill
    different keys ([text], [description] or [abstract]; [name] only for
    repositories; [author] not for repositories). *)
Record Item : Type := mkItem {
  source : option str;
  topic : option str;
  url : option str;
  name : option str;
  title : option str;
  text : option str;
  description : option str;
  abstract : option str;
  highlights : option (option (list str));
  published_date : option (option str);
  author : option (option str)
}.

Record DateRange : Type := mkDateRange {
  dr_start : option str;
  dr_end : option str
}.

(** The dict [fetch_all] returns. *)
Record Bundle : Type := mkBundle {
  x_posts : option (list Item);
  github_repos : option (list Item);
  arxiv_papers : option (list Item);
  fetch_date : option str;
  date_range : option DateRange
}.

(** [d.get(key, default)] on a field. *)
Definition get {A} (field : option A) (default : A) : A :=
  match field with
  | Some v => v
  | None => default
  end.

(** [{}] as a date range. *)
Definition empty_dict : DateRange := mkDateRange None None.

Definition empty_bundle : Bundle :=
  mkBundle (Some []) (Some []) (Some []) None None.

End Data.
Import Data.

(** ** Exceptions, the outside world and the effect monad *)

Module Py.

(** Classes below [Exception]; [str(e)] is the message. *)
Inductive ExnClass : Type :=
| ValueError
| IndexError
| ConnectionError
| APIError.

Record Exn : Type := mkExn { exn_class : ExnClass; exn_msg : str }.

(** One result object of the search client. [url] is always there;
    the attributes the fetcher probes with [hasattr] may be missing. *)
Record SearchResult : Type := mkResult {
  r_url : str;
  r_title : option str;
  r_text : option str;
  r_highlights : option (option (list str));
  r_published_date : option (option str);
  r_author : option (option str)
}.

(** Keyword arguments of [client.search_and_contents]. *)
Record SearchRequest : Type := mkSearch {
  q_query : str;
  q_num_results : nat;
  q_start_published_date : str;
  q_end_published_date : str;
  q_text : bool;
  q_highlights : bool
}.

(** Keyword arguments of [client.chat.completions.create]; a message is
    a role and a content. *)
Record ChatRequest : Type := mkChat {
  c_model : str;
  c_messages : list (str * str);
  c_temperature : Q;
  c_max_tokens : nat
}.

(** [response.choices], each choice reduced to [message.content]. *)
Record ChatResponse : Type := mkResponse {
  choices : list (option str)
}.

Inductive NetCall : Type :=
| Search (q : SearchRequest)
| Chat (c : ChatRequest).

(** What the program reads from outside. A [datetime] is a number of
    seconds; [clock n] is what the [n]-th call of [datetime.now()]
    returns; [exa_search n q] and [chat_create n c] are the answers to a
    request issued as the [n]-th network call of the run;
    [json_dumps] is [json.dumps(data, indent=2, default=str)]. *)
Record Env : Type := mkEnv {
  getenv_EXA_API_KEY : option str;
  getenv_OPENROUTER_API_KEY : option str;
  clock : nat -> Z;
  strftime : Z -> str -> str;
  isoformat : Z -> str;
  exa_search : nat -> SearchRequest -> Exn + list SearchResult;
  chat_create : nat -> ChatRequest -> Exn + ChatResponse;
  json_dumps : Bundle -> str
}.

(** What the program does to the outside. *)
Record World : Type := mkWorld {
  stdout : list str;
  net : list NetCall;
  clock_reads : nat;
  dirs : list str;
  files : list (str * str)
}.

Definition M (A : Type) : Type := World -> (Exn + A) * World.

Definition ret {A} (a : A) : M A := fun w => (inr a, w).

Definition bind {A B} (m : M A) (k : A -> M B) : M B :=
  fun w =>
    match m w with
    | (inl e, w') => (inl e, w')
    | (inr a, w') => k a w'
    end.

Definition raise {A} (e : Exn) : M A := fun w => (inl e, w).

(** [try: body  except Exception as e: handler(e)] *)
Definition try_except {A} (body : M A) (handler : Exn -> M A) : M A :=
  fun w =>
    match body w with
    | (inl e, w') => handler e w'
    | (inr a, w') => (inr a, w')
    end.

(** [try: body  except ValueError as e: handler(e)] *)
Definition try_except_ValueError {A} (body : M A) (handler : Exn -> M A)
  : M A :=
  fun w =>
    match body w with
    | (inl e, w') =>
        match exn_class e with
        | ValueError => handler e w'
        | _ => (inl e, w')
        end
    | (inr a, w') => (inr a, w')
    end.

Definition print (line : str) : M unit :=
  fun w =>
    (inr tt, mkWorld (stdout w ++ [line]) (net w) (clock_reads w)
                     (dirs w) (files w)).

(** [datetime.now()] *)
Definition datetime_now (env : Env) : M Z :=
  fun w =>
    (inr (clock env (clock_reads w)),
     mkWorld (stdout w) (net w) (S (clock_reads w)) (dirs w) (files w)).

(** [client.search_and_contents(...)]: the call is issued, then it
    returns [results.results] or raises. *)
Definition search_and_contents (env : Env) (q : SearchRequest)
  : M (list SearchResult) :=
  fun w =>
    (match exa_search env (length (net w)) q with
     | inl e => inl e
     | inr rs => inr rs
     end,
     mkWorld (stdout w) (net w ++ [Search q]) (clock_reads w)
             (dirs w) (files w)).

(** [client.chat.completions.create(...)] *)
Definition chat_completions_create (env : Env) (c : ChatRequest)
  : M ChatResponse :=
  fun w =>
    (match chat_create env (length (net w)) c with
     | inl e => inl e
     | inr r => inr r
     end,
     mkWorld (stdout w) (net w ++ [Chat c]) (clock_reads w)
             (dirs w) (files w)).

(** [Path.mkdir(exist_ok=True)] *)
Definition mkdir (d : str) : M unit :=
  fun w =>
    (inr tt, mkWorld (stdout w) (net w) (clock_reads w)
                     (dirs w ++ [d]) (files w)).

(** [Path.write_text(content, encoding="utf-8")] *)
Definition write_text (path content : str) : M unit :=
  fun w =>
    (inr tt, mkWorld (stdout w) (net w) (clock_reads w)
                     (dirs w) (files w ++ [(path, content)])).

(** [for x in xs: acc = body(x, acc)], the accumulator standing for the
    list the loop appends to. *)
Fixpoint for_each {A S} (xs : list A) (body : A -> S -> M S) (acc : S)
  : M S :=
  match xs with
  | [] => ret acc
  | x :: xs' => bind (body x acc) (for_each xs' body)
  end.

Definition empty_world : World := mkWorld [] [] 0 [] [].

End Py.
Import Py.

Declare Scope py_scope.
Delimit Scope py_scope with py.
Notation "x <- m ;; k" := (bind m (fun x => k))
(at level 61, m at next level, right associativity) : py_scope.
Notation "m ;;; k" := (bind m (fun _ => k))
(at level 61, right associativity) : py_scope.
Open Scope py_scope.

(** ** src/config.py *)

Module Config.

Definition EXA_API_KEY (env : Env) : option str := getenv_EXA_API_KEY env.
Definition OPENROUTER_API_KEY (env : Env) : option str :=
  getenv_OPENROUTER_API_KEY env.

Definition OPENROUTER_BASE_URL : str := lit "https://openrouter.ai/api/v1".
Definition DEFAULT_MODEL : str := lit "xiaomi/mimo-v2-flash:free".

(** [SEARCH_SETTINGS] *)
Definition SEARCH_SETTINGS_num_results : nat := 10.
Definition SEARCH_SETTINGS_days_back : nat := 7.

Definition TOPICS : list str :=
  [ lit "LLM";
    lit "large language model";
    lit "AI artificial intelligence";
    lit "robotics";
    lit "machine learning";
    lit "neural network";
    lit "GPT";
    lit "transformer model" ].

End Config.

(** ** src/exa_fetcher.py *)

Module ExaFetcher.

Record t : Type := mkFetcher {
  client_api_key : str;
  num_results : nat;
  days_back : nat
}.

(** [ExaFetcher.__init__] *)
Definition __init__ (env : Env) : M t :=
  if negb (truthy (Config.EXA_API_KEY env))
  then raise (mkExn ValueError
                (lit "EXA_API_KEY not set. Please add it to your .env file."))
  else ret (mkFetcher (get (Config.EXA_API_KEY env) [])
                      Config.SEARCH_SETTINGS_num_results
                      Config.SEARCH_SETTINGS_days_back).

(** [timedelta(days=n)] in seconds. *)
Definition timedelta_days (n : nat) : Z := (86400 * Z.of_nat n)%Z.

(** [ExaFetcher._get_date_range] *)
Definition _get_date_range (env : Env) (self : t) : M (str * str) :=
  end_date <- datetime_now env ;;
  let start_date := (end_date - timedelta_days (days_back self))%Z in
  ret (strftime env start_date (lit "%Y-%m-%d"),
       strftime env end_date (lit "%Y-%m-%d")).

(** The search call of the three fetch loops; only the query differs. *)
Definition request (self : t) (query start_date end_date : str)
  : SearchRequest :=
  {| q_query := query;
     q_num_results := num_results self;
     q_start_published_date := start_date;
     q_end_published_date := end_date;
     q_text := true;
     q_highlights := true |}.

(** [result.X if hasattr(result, 'X') else default] *)
Definition attr_or {A} (attr : option A) (default : A) : A :=
  match attr with
  | Some v => v
  | None => default
  end.

(** [result.text[:n] if result.text else ""] *)
Definition excerpt (n : nat) (t : option str) : str :=
  if truthy t then slice_to n (get t []) else [].

(** The dict appended by [fetch_x_posts]. *)
Definition x_post (topic : str) (result : SearchResult) : Item :=
  {| source := Some (lit "X/Twitter");
     topic := Some topic;
     url := Some (r_url result);
     name := None;
     title := Some (or_else (r_title result) (lit "No title"));
     text := Some (excerpt 500 (r_text result));
     description := None;
     abstract := None;
     highlights := Some (attr_or (r_highlights result) (Some []));
     published_date := Some (attr_or (r_published_date result) None);
     author := Some (attr_or (r_author result) (Some (lit "Unknown"))) |}.

Definition x_query (topic : str) : str :=
  topic ++ lit " AI breakthrough OR announcement site:twitter.com OR site:x.com".

(** [ExaFetcher.fetch_x_posts] *)
Definition fetch_x_posts (env : Env) (self : t) (topics : list str)
  : M (list Item) :=
  dr <- _get_date_range env self ;;
  let '(start_date, end_date) := dr in
  for_each (firstn 3 topics)
    (fun topic all_posts =>
       let query := x_query topic in
       try_except
         (results <- search_and_contents env
                       (request self query start_date end_date) ;;
          ret (fold_left
                 (fun all_posts result => all_posts ++ [x_post topic result])
                 results all_posts))
         (fun e =>
            print (lit "Error fetching X posts for '" ++ topic
                     ++ lit "': " ++ exn_msg e) ;;;
            ret all_posts))
    [].

(** [ExaFetcher._extract_repo_name]; nothing in the body can raise on a
    string, so the bare [except] is never taken. *)
Definition _extract_repo_name (url : str) : str :=
  let parts := split 47%N (replace (lit "https://github.com/") [] url) in
  match parts with
  | p0 :: p1 :: _ => p0 ++ lit "/" ++ p1
  | _ => url
  end.

(** The dict appended by [fetch_github_trending]. *)
Definition github_repo (topic : str) (result : SearchResult) : Item :=
  let url := r_url result in
  let repo_name := _extract_repo_name url in
  {| source := Some (lit "GitHub");
     topic := Some topic;
     Data.url := Some url;
     name := Some repo_name;
     title := Some (or_else (r_title result) repo_name);
     text := None;
     description := Some (excerpt 500 (r_text result));
     abstract := None;
     highlights := Some (attr_or (r_highlights result) (Some []));
     published_date := Some (attr_or (r_published_date result) None);
     author := None |}.

Definition github_query (topic : str) : str :=
  topic ++ lit " repository stars site:github.com".

(** [ExaFetcher.fetch_github_trending] *)
Definition fetch_github_trending (env : Env) (self : t) (topics : list str)
  : M (list Item) :=
  dr <- _get_date_range env self ;;
  let '(start_date, end_date) := dr in
  for_each (firstn 3 topics)
    (fun topic all_repos =>
       let query := github_query topic in
       try_except
         (results <- search_and_contents env
                       (request self query start_date end_date) ;;
          ret (fold_left
                 (fun all_repos result =>
                    all_repos ++ [github_repo topic result])
                 results all_repos))
         (fun e =>
            print (lit "Error fetching GitHub repos for '" ++ topic
                     ++ lit "': " ++ exn_msg e) ;;;
            ret all_repos))
    [].

(** The dict appended by [fetch_arxiv_papers]. *)
Definition arxiv_paper (topic : str) (result : SearchResult) : Item :=
  {| source := Some (lit "arXiv");
     topic := Some topic;
     url := Some (r_url result);
     name := None;
     title := Some (or_else (r_title result) (lit "Untitled Paper"));
     text := None;
     description := None;
     abstract := Some (excerpt 800 (r_text result));
     highlights := Some (attr_or (r_highlights result) (Some []));
     published_date := Some (attr_or (r_published_date result) None);
     author := Some (attr_or (r_author result) (Some (lit "Unknown"))) |}.

Definition arxiv_query (topic : str) : str :=
  topic ++ lit " research paper site:arxiv.org".

(** [ExaFetcher.fetch_arxiv_papers] *)
Definition fetch_arxiv_papers (env : Env) (self : t) (topics : list str)
  : M (list Item) :=
  dr <- _get_date_range env self ;;
  let '(start_date, end_date) := dr in
  for_each (firstn 4 topics)
    (fun topic all_papers =>
       let query := arxiv_query topic in
       try_except
         (results <- search_and_contents env
                       (request self query start_date end_date) ;;
          ret (fold_left
                 (fun all_papers result =>
                    all_papers ++ [arxiv_paper topic result])
                 results all_papers))
         (fun e =>
            print (lit "Error fetching arXiv papers for '" ++ topic
                     ++ lit "': " ++ exn_msg e) ;;;
            ret all_papers))
    [].

(** [ExaFetcher.fetch_all] *)
Definition fetch_all (env : Env) (self : t) (topics : list str) : M Bundle :=
  print (lit "Fetching X/Twitter posts...") ;;;
  x_posts <- fetch_x_posts env self topics ;;
  print (lit "Fetching GitHub repositories...") ;;;
  github_repos <- fetch_github_trending env self topics ;;
  print (lit "Fetching arXiv papers...") ;;;
  arxiv_papers <- fetch_arxiv_papers env self topics ;;
  now <- datetime_now env ;;
  range0 <- _get_date_range env self ;;
  range1 <- _get_date_range env self ;;
  ret {| x_posts := Some x_posts;
         github_repos := Some github_repos;
         arxiv_papers := Some arxiv_papers;
         fetch_date := Some (isoformat env now);
         date_range := Some {| dr_start := Some (fst range0);
                               dr_end := Some (snd range1) |} |}.

End ExaFetcher.

(** ** src/llm_analyzer.py *)

Module LLMAnalyzer.

Record t : Type := mkAnalyzer {
  client_api_key : str;
  client_base_url : str;
  model : str
}.

(** [LLMAnalyzer.__init__] *)
Definition __init__ (env : Env) (model : option str) : M t :=
  if negb (truthy (Config.OPENROUTER_API_KEY env))
  then raise (mkExn ValueError
                (lit "OPENROUTER_API_KEY not set. Please add it to your .env file."))
  else ret (mkAnalyzer (get (Config.OPENROUTER_API_KEY env) [])
                       Config.OPENROUTER_BASE_URL
                       (or_else model Config.DEFAULT_MODEL)).

(** [item.get('highlights')] as a condition. *)
Definition has_highlights (item : Item) : bool :=
  match highlights item with
  | Some (Some (_ :: _)) => true
  | _ => false
  end.

(** [item['highlights']] once the condition holds. *)
Definition highlights_of (item : Item) : list str :=
  match highlights item with
  | Some (Some hs) => hs
  | _ => []
  end.

(** [item.get('published_date', 'Unknown date')] inside an f-string. *)
Definition date_field (item : Item) : str :=
  match published_date item with
  | Some v => fmt v
  | None => lit "Unknown date"
  end.

(** [item.get('text', item.get('abstract', item.get('description',
    'No content')))] *)
Definition content_field (item : Item) : str :=
  get (text item) (get (abstract item)
                       (get (description item) (lit "No content"))).

(** The body of the loop of [_format_items]: the entry of item [i]. *)
Definition entry (i : nat) (item : Item) : str :=
  let entry :=
    PyStr.text
      [ [];
        lit "### Item " ++ str_of_nat i;
        lit "- **Source**: " ++ get (source item) (lit "Unknown");
        lit "- **Topic**: " ++ get (topic item) (lit "General");
        lit "- **Title**: " ++ get (title item) (lit "No title");
        lit "- **URL**: " ++ get (url item) (lit "No URL");
        lit "- **Date**: " ++ date_field item;
        lit "- **Content**: " ++ content_field item;
        [] ] in
  if has_highlights item
  then entry ++ lit "- **Key Highlights**: "
             ++ join (lit " | ") (firstn 3 (highlights_of item)) ++ nl
  else entry.

(** [for i, item in enumerate(items, i0)] collecting the entries. *)
Fixpoint entries (i0 : nat) (items : list Item) : list str :=
  match items with
  | [] => []
  | item :: rest => entry i0 item :: entries (S i0) rest
  end.

(** [LLMAnalyzer._format_items] *)
Definition _format_items (items : list Item) : str :=
  join nl (entries 1 items).

(** [data.get(key)] as a condition, for a key holding a list. *)
Definition nonempty (field : option (list Item)) : bool :=
  match field with
  | Some (_ :: _) => true
  | _ => false
  end.

(** [LLMAnalyzer._prepare_context] *)
Definition _prepare_context (data : Bundle) : str :=
  let sections := [] in
  let sections :=
    if nonempty (x_posts data)
    then sections ++ [lit "## X/Twitter Posts" ++ nl]
                  ++ [_format_items (get (x_posts data) [])]
    else sections in
  let sections :=
    if nonempty (github_repos data)
    then sections ++ [nl ++ lit "## GitHub Repositories" ++ nl]
                  ++ [_format_items (get (github_repos data) [])]
    else sections in
  let sections :=
    if nonempty (arxiv_papers data)
    then sections ++ [nl ++ lit "## arXiv Papers" ++ nl]
                  ++ [_format_items (get (arxiv_papers data) [])]
    else sections in
  join nl sections.

Definition dquote : str := [34%N].

Definition system_prompt : str :=
  PyStr.text
    [ lit "You are an expert AI/ML research analyst. Your job is to analyze ";
      lit "recent developments in AI, LLMs, and robotics, and compile a comprehensive weekly digest.";
      [];
      lit "Your report should:";
      lit "1. Identify the most significant developments and trends";
      lit "2. Group related items together thematically";
      lit "3. Provide insightful analysis on why these developments matter";
      lit "4. Include proper citations with URLs for all sources";
      lit "5. Highlight any breakthrough research or viral projects";
      lit "6. Note connections between different developments";
      lit "7. Provide a brief executive summary at the top";
      [];
      lit "Format the report in clean Markdown with:";
      lit "- Executive Summary section";
      lit "- Key Themes/Trends section";
      lit "- Detailed breakdown by category (Papers, GitHub Projects, Social Discussion)";
      lit "- Each item should have a linked citation";
      lit "- A " ++ dquote ++ lit "What to Watch" ++ dquote
        ++ lit " section for emerging trends";
      [];
      lit "Be concise but thorough. Focus on signal over noise." ].

Definition user_prompt (data : Bundle) (context : str) : str :=
  PyStr.text
    [ lit "Please analyze the following data collected over the past week and compile ";
      lit "a comprehensive AI/ML/Robotics weekly digest with full citations and links.";
      [];
      lit "Date Range: "
        ++ get (dr_start (get (date_range data) empty_dict)) (lit "N/A")
        ++ lit " to "
        ++ get (dr_end (get (date_range data) empty_dict)) (lit "N/A");
      [];
      context;
      [];
      lit "Please compile a comprehensive report with analysis, insights, and proper citations (include URLs)." ].

(** [response.choices[0].message.content] *)
Definition first_content (response : ChatResponse) : M (option str) :=
  match choices response with
  | c :: _ => ret c
  | [] => raise (mkExn IndexError (lit "list index out of range"))
  end.

(** The keyword arguments of the completion call of
    [analyze_and_compile]. *)
Definition analysis_request (self : t) (system_prompt user_prompt : str)
  : ChatRequest :=
  {| c_model := model self;
     c_messages := [ (lit "system", system_prompt);
                     (lit "user", user_prompt) ];
     c_temperature := (7 # 10)%Q;
     c_max_tokens := 4000 |}.

(** [LLMAnalyzer.analyze_and_compile] *)
Definition analyze_and_compile (env : Env) (self : t) (data : Bundle)
  : M (option str) :=
  let context := _prepare_context data in
  let system_prompt := system_prompt in
  let user_prompt := user_prompt data context in
  try_except
    (response <- chat_completions_create env
                   (analysis_request self system_prompt user_prompt) ;;
     first_content response)
    (fun e => ret (Some (lit "Error generating analysis: " ++ exn_msg e))).

Definition str_eqb (a b : str) : bool :=
  if list_eq_dec N.eq_dec a b then true else false.

(** [source_names.get(source_type, source_type)] *)
Definition source_names : list (str * str) :=
  [ (lit "x_posts", lit "X/Twitter Posts");
    (lit "github_repos", lit "GitHub Repositories");
    (lit "arxiv_papers", lit "arXiv Papers") ].

Fixpoint dict_get (d : list (str * str)) (key default : str) : str :=
  match d with
  | [] => default
  | (k, v) :: d' => if str_eqb k key then v else dict_get d' key default
  end.

Definition summary_prompt (source_type context : str) : str :=
  PyStr.text
    [ lit "Summarize the following "
        ++ dict_get source_names source_type source_type ++ lit " ";
      lit "about AI/LLM/Robotics. Highlight the most important/trending items and include URLs as citations.";
      [];
      context;
      [];
      lit "Provide a concise summary with key takeaways and links to the most notable items." ].

(** The keyword arguments of the completion call of
    [summarize_single_source]. *)
Definition summary_request (self : t) (prompt : str) : ChatRequest :=
  {| c_model := model self;
     c_messages := [ (lit "user", prompt) ];
     c_temperature := (7 # 10)%Q;
     c_max_tokens := 1500 |}.

(** [LLMAnalyzer.summarize_single_source] *)
Definition summarize_single_source (env : Env) (self : t)
           (source_type : str) (items : list Item) : M (option str) :=
  match items with
  | [] => ret (Some (lit "No " ++ source_type ++ lit " data available."))
  | _ :: _ =>
      let context := _format_items items in
      let prompt := summary_prompt source_type context in
      try_except
        (response <- chat_completions_create env
                       (summary_request self prompt) ;;
         first_content response)
        (fun e => ret (Some (lit "Error summarizing " ++ source_type
                               ++ lit ": " ++ exn_msg e)))
  end.

End LLMAnalyzer.

(** ** src/report_generator.py *)

Module ReportGenerator.

Record t : Type := mkGenerator { output_dir : str }.

(** [ReportGenerator.__init__] *)
Definition __init__ (output_dir : option str) : M t :=
  let self := mkGenerator (get output_dir (lit "reports")) in
  mkdir (ReportGenerator.output_dir self) ;;;
  ret self.

(** [self.output_dir / filename], as a string. *)
Definition path_join (dir filename : str) : str :=
  dir ++ lit "/" ++ filename.

(** [ReportGenerator.save_markdown] *)
Definition save_markdown (env : Env) (self : t) (content : str)
           (filename : option str) : M str :=
  filename <-
    match filename with
    | None =>
        now <- datetime_now env ;;
        let timestamp := strftime env now (lit "%Y-%m-%d_%H-%M-%S") in
        ret (lit "ai_digest_" ++ timestamp ++ lit ".md")
    | Some f => ret f
    end ;;
  let filepath := path_join (output_dir self) filename in
  write_text filepath content ;;;
  ret filepath.

(** [ReportGenerator.save_raw_data] *)
Definition save_raw_data (env : Env) (self : t) (data : Bundle)
           (filename : option str) : M str :=
  filename <-
    match filename with
    | None =>
        now <- datetime_now env ;;
        let timestamp := strftime env now (lit "%Y-%m-%d_%H-%M-%S") in
        ret (lit "raw_data_" ++ timestamp ++ lit ".json")
    | Some f => ret f
    end ;;
  let filepath := path_join (output_dir self) filename in
  write_text filepath (json_dumps env data) ;;;
  ret filepath.

Definition robot : str := [129302%N].
Definition bar_chart : str := [128202%N].
Definition memo : str := [128221%N].

(** [ReportGenerator.generate_header] *)
Definition generate_header (env : Env) (date_range : DateRange) : M str :=
  now <- datetime_now env ;;
  ret (PyStr.text
         [ lit "# " ++ robot ++ lit " AI/ML/Robotics Weekly Digest";
           [];
           lit "**Generated**: "
             ++ strftime env now (lit "%B %d, %Y at %I:%M %p") ++ lit "  ";
           lit "**Period**: " ++ get (dr_start date_range) (lit "N/A")
             ++ lit " to " ++ get (dr_end date_range) (lit "N/A");
           [];
           lit "---";
           [];
           [] ]).

(** [ReportGenerator.generate_stats_section] *)
Definition generate_stats_section (data : Bundle) : str :=
  let x_count := length (get (x_posts data) []) in
  let github_count := length (get (github_repos data) []) in
  let arxiv_count := length (get (arxiv_papers data) []) in
  PyStr.text
    [ lit "## " ++ bar_chart ++ lit " Data Summary";
      [];
      lit "| Source | Items Collected |";
      lit "|--------|-----------------|";
      lit "| X/Twitter Posts | " ++ str_of_nat x_count ++ lit " |";
      lit "| GitHub Repositories | " ++ str_of_nat github_count ++ lit " |";
      lit "| arXiv Papers | " ++ str_of_nat arxiv_count ++ lit " |";
      lit "| **Total** | **"
        ++ str_of_nat (x_count + github_count + arxiv_count) ++ lit "** |";
      [];
      lit "---";
      [];
      [] ].

(** The text after [{analysis}] in [format_full_report]. *)
Definition methodology : str :=
  PyStr.text
    [ [];
      [];
      lit "---";
      [];
      lit "## " ++ memo ++ lit " Methodology";
      [];
      lit "This digest was compiled using:";
      lit "- **Exa AI** for intelligent web search and content extraction";
      lit "- **OpenRouter** for LLM analysis and synthesis";
      lit "- Data sources: X/Twitter, GitHub, arXiv";
      [];
      lit "---";
      [];
      lit "*Generated automatically by RecentNews AI Digest System*";
      [] ].

(** [ReportGenerator.format_full_report]; [analysis] is what the
    analyzer returned, a string or [None]. *)
Definition format_full_report (env : Env) (data : Bundle)
           (analysis : option str) : M str :=
  header <- generate_header env (get (date_range data) empty_dict) ;;
  let stats := generate_stats_section data in
  let full_report := header ++ stats ++ fmt analysis ++ methodology in
  ret full_report.

End ReportGenerator.

(** ** main.py *)

Module Main.

Definition check_mark : str := [10003%N].
Definition page : str := [128196%N].

(** [main]; what [rich] renders (panels, the progress line, Markdown)
    is reduced to the text handed to it, printed on [stdout]. *)
Definition main (env : Env) (topics : option (list str))
           (save_report save_raw display : bool) : M (option str) :=
  let topics :=
    match topics with
    | Some (t :: ts) => t :: ts
    | _ => Config.TOPICS
    end in
  print (lit "[bold blue]" ++ ReportGenerator.robot
           ++ lit " AI/ML/Robotics Weekly Digest Generator[/bold blue]" ++ nl
           ++ lit "[dim]Powered by Exa AI & OpenAI[/dim]") ;;;
  components <-
    try_except_ValueError
      (fetcher <- ExaFetcher.__init__ env ;;
       analyzer <- LLMAnalyzer.__init__ env None ;;
       generator <- ReportGenerator.__init__ None ;;
       ret (Some (fetcher, analyzer, generator)))
      (fun e =>
         print (lit "[red]Configuration Error: " ++ exn_msg e
                  ++ lit "[/red]") ;;;
         print (lit "[yellow]Please ensure your .env file has EXA_API_KEY and OPENAI_API_KEY set.[/yellow]") ;;;
         ret None) ;;
  match components with
  | None => ret None
  | Some (fetcher, analyzer, generator) =>
      print (lit "[cyan]Fetching data from all sources...") ;;;
      data <- ExaFetcher.fetch_all env fetcher topics ;;
      print (lit "[green]" ++ check_mark ++ lit " Data fetching complete!") ;;;
      print (lit "[cyan]Analyzing with LLM...") ;;;
      analysis <- LLMAnalyzer.analyze_and_compile env analyzer data ;;
      print (lit "[green]" ++ check_mark ++ lit " Analysis complete!") ;;;
      print (lit "[cyan]Generating report...") ;;;
      full_report <- ReportGenerator.format_full_report env data analysis ;;
      print (lit "[green]" ++ check_mark ++ lit " Report generated!") ;;;
      (if save_report
       then report_path <-
              ReportGenerator.save_markdown env generator full_report None ;;
            print (lit "[green]" ++ page ++ lit " Report saved to: "
                     ++ report_path ++ lit "[/green]")
       else ret tt) ;;;
      (if save_raw
       then raw_path <-
              ReportGenerator.save_raw_data env generator data None ;;
            print (lit "[green]" ++ ReportGenerator.bar_chart
                     ++ lit " Raw data saved to: " ++ raw_path
                     ++ lit "[/green]")
       else ret tt) ;;;
      (if display
       then print nl ;;; print full_report
       else ret tt) ;;;
      ret (Some full_report)
  end.

End Main.

(** ** Vocabulary of the specification *)

Module Spec.

(** [s] occurs in [t]. *)
Definition substr (s t : str) : Prop := exists a b, t = a ++ s ++ b.

Fixpoint substrb (s t : str) : bool :=
  startswith s t ||
  match t with
  | [] => false
  | _ :: t' => substrb s t'
  end.

(** Reading a decimal numeral back. *)
Definition digit (c : char) : option (uint -> uint) :=
  if N.eqb c 48 then Some D0 else
  if N.eqb c 49 then Some D1 else
  if N.eqb c 50 then Some D2 else
  if N.eqb c 51 then Some D3 else
  if N.eqb c 52 then Some D4 else
  if N.eqb c 53 then Some D5 else
  if N.eqb c 54 then Some D6 else
  if N.eqb c 55 then Some D7 else
  if N.eqb c 56 then Some D8 else
  if N.eqb c 57 then Some D9 else None.

Fixpoint uint_of_str (s : str) : option uint :=
  match s with
  | [] => Some Nil
  | c :: s' =>
      match digit c, uint_of_str s' with
      | Some d, Some u => Some (d u)
      | _, _ => None
      end
  end.

Definition nat_of_str (s : str) : option nat :=
  match s with
  | [] => None
  | _ :: _ => option_map Nat.of_uint (uint_of_str s)
  end.

(** The stats table around four cells. *)
Definition stats_table (x github arxiv total : str) : str :=
  PyStr.text
    [ lit "## " ++ ReportGenerator.bar_chart ++ lit " Data Summary";
      [];
      lit "| Source | Items Collected |";
      lit "|--------|-----------------|";
      lit "| X/Twitter Posts | " ++ x ++ lit " |";
      lit "| GitHub Repositories | " ++ github ++ lit " |";
      lit "| arXiv Papers | " ++ arxiv ++ lit " |";
      lit "| **Total** | **" ++ total ++ lit "** |";
      [];
      lit "---";
      [];
      [] ].

(** The search client honours [num_results]. *)
Definition honours_limit (env : Env) : Prop :=
  forall n q rs,
    exa_search env n q = inr rs -> length rs <= q_num_results q.

(** The date range [_get_date_range] computes at the [n]-th clock read. *)
Definition dates (env : Env) (self : ExaFetcher.t) (n : nat) : str * str :=
  (strftime env (clock env n
                 - ExaFetcher.timedelta_days (ExaFetcher.days_back self))%Z
     (lit "%Y-%m-%d"),
   strftime env (clock env n) (lit "%Y-%m-%d")).

(** The search request of a category for a topic, at the [n]-th clock
    read. *)
Definition request_at (env : Env) (self : ExaFetcher.t) (n : nat)
           (query : str -> str) (topic : str) : SearchRequest :=
  ExaFetcher.request self (query topic)
    (fst (dates env self n)) (snd (dates env self n)).

Section Category.

Variable env : Env.
Variable req : str -> SearchRequest.
Variable mk : str -> SearchResult -> Item.
Variable label : str.

(** One turn of a fetch loop. *)
Definition turn (topic : str) (acc : list Item) : M (list Item) :=
  try_except
    (results <- search_and_contents env (req topic) ;;
     ret (fold_left (fun acc result => acc ++ [mk topic result])
                    results acc))
    (fun e =>
       print (label ++ topic ++ lit "': " ++ exn_msg e) ;;;
       ret acc).

(** The records of the topics [ts], queried from network call [k] on:
    a topic whose call raises contributes nothing. *)
Fixpoint gathered (k : nat) (ts : list str) : list Item :=
  match ts with
  | [] => []
  | t :: ts' =>
      match exa_search env k (req t) with
      | inr rs => map (mk t) rs
      | inl _ => []
      end ++ gathered (S k) ts'
  end.

(** The lines printed for the topics whose call raises. *)
Fixpoint complaints (k : nat) (ts : list str) : list str :=
  match ts with
  | [] => []
  | t :: ts' =>
      match exa_search env k (req t) with
      | inr _ => []
      | inl e => [label ++ t ++ lit "': " ++ exn_msg e]
      end ++ complaints (S k) ts'
  end.

(** Every record of a topic whose call returned is among [items], and
    every call that raised left its line in [out]. *)
Definition keeps_partial (k : nat) (ts : list str) (items : list Item)
           (out : list str) : Prop :=
  (forall i t rs r,
      nth_error ts i = Some t ->
      exa_search env (k + i) (req t) = inr rs ->
      In r rs -> In (mk t r) items)
  /\
  (forall i t e,
      nth_error ts i = Some t ->
      exa_search env (k + i) (req t) = inl e ->
      In (label ++ t ++ lit "': " ++ exn_msg e) out).

(** [it] was built from a result the client returned for one of [ts]. *)
Definition fetched_from (k : nat) (ts : list str) (it : Item)
           (r : SearchResult) : Prop :=
  exists i t rs,
    nth_error ts i = Some t /\
    exa_search env (k + i) (req t) = inr rs /\
    In r rs /\ it = mk t r.

End Category.

Definition x_label : str := lit "Error fetching X posts for '".
Definition github_label : str := lit "Error fetching GitHub repos for '".
Definition arxiv_label : str := lit "Error fetching arXiv papers for '".

(** All the records of a bundle. *)
Definition records (data : Bundle) : list Item :=
  get (x_posts data) [] ++ get (github_repos data) []
    ++ get (arxiv_papers data) [].

(** The excerpt [e] is the raw text cut at [cap] characters. *)
Definition capped_at (cap : nat) (raw : option str) (e : str) : Prop :=
  e = firstn cap (get raw []) /\
  length e = Nat.min cap (length (get raw [])).

(** The requests of the three loops of a [fetch_all] started in [w]: each
    loop reads the clock once, in this order. *)
Definition x_req (env : Env) (self : ExaFetcher.t) (w : World)
  : str -> SearchRequest :=
  request_at env self (clock_reads w) ExaFetcher.x_query.

Definition github_req (env : Env) (self : ExaFetcher.t) (w : World)
  : str -> SearchRequest :=
  request_at env self (1 + clock_reads w) ExaFetcher.github_query.

Definition arxiv_req (env : Env) (self : ExaFetcher.t) (w : World)
  : str -> SearchRequest :=
  request_at env self (2 + clock_reads w) ExaFetcher.arxiv_query.

(** The network call at which each loop of that [fetch_all] starts. *)
Definition x_from (w : World) (topics : list str) : nat := length (net w).

Definition github_from (w : World) (topics : list str) : nat :=
  length (net w) + length (firstn 3 topics).

Definition arxiv_from (w : World) (topics : list str) : nat :=
  length (net w) + length (firstn 3 topics) + length (firstn 3 topics).

(** What [fetch_all] returns and leaves behind, spelled out. *)
Definition fetched_bundle (env : Env) (self : ExaFetcher.t)
           (topics : list str) (w : World) : Bundle :=
  {| x_posts :=
       Some (gathered env (x_req env self w) ExaFetcher.x_post
               (x_from w topics) (firstn 3 topics));
     github_repos :=
       Some (gathered env (github_req env self w) ExaFetcher.github_repo
               (github_from w topics) (firstn 3 topics));
     arxiv_papers :=
       Some (gathered env (arxiv_req env self w) ExaFetcher.arxiv_paper
               (arxiv_from w topics) (firstn 4 topics));
     fetch_date := Some (isoformat env (clock env (3 + clock_reads w)));
     date_range :=
       Some {| dr_start := Some (fst (dates env self (4 + clock_reads w)));
               dr_end := Some (snd (dates env self (5 + clock_reads w))) |} |}.

Definition fetched_world (env : Env) (self : ExaFetcher.t)
           (topics : list str) (w : World) : World :=
  mkWorld
    (stdout w
       ++ [lit "Fetching X/Twitter posts..."]
       ++ complaints env (x_req env self w) x_label
            (x_from w topics) (firstn 3 topics)
       ++ [lit "Fetching GitHub repositories..."]
       ++ complaints env (github_req env self w) github_label
            (github_from w topics) (firstn 3 topics)
       ++ [lit "Fetching arXiv papers..."]
       ++ complaints env (arxiv_req env self w) arxiv_label
            (arxiv_from w topics) (firstn 4 topics))
    (net w
       ++ map (fun t => Search (x_req env self w t)) (firstn 3 topics)
       ++ map (fun t => Search (github_req env self w t)) (firstn 3 topics)
       ++ map (fun t => Search (arxiv_req env self w t)) (firstn 4 topics))
    (6 + clock_reads w) (dirs w) (files w).

(** The content of a record: its [text], else its [abstract], else its
    [description]. *)
Definition content_of (item : Item) : option str :=
  match text item, abstract item, description item with
  | Some c, _, _ => Some c
  | None, Some c, _ => Some c
  | None, None, d => d
  end.

(** The stanza [e] carries the source, topic, title, URL, date and content
    of [item], and those of its highlights that are in [shown]. *)
Definition carries (item : Item) (shown : list str) (e : str) : Prop :=
  (forall s, source item = Some s -> substr s e) /\
  (forall s, topic item = Some s -> substr s e) /\
  (forall s, title item = Some s -> substr s e) /\
  (forall s, url item = Some s -> substr s e) /\
  (forall s, published_date item = Some (Some s) -> substr s e) /\
  (forall s, content_of item = Some s -> substr s e) /\
  (forall h, In h shown -> substr h e).

End Spec.
Import Spec.

(** ** Concrete runs *)

Module Examples.

Definition result (n : nat) (body : str) : SearchResult :=
  {| r_url := lit "https://example.org/" ++ str_of_nat n;
     r_title := Some (lit "Title " ++ str_of_nat n);
     r_text := Some body;
     r_highlights := Some (Some [lit "alpha"; lit "beta"]);
     r_published_date := Some (Some (lit "2024-05-01"));
     r_author := Some None |}.

Definition results (n : nat) : list SearchResult :=
  map (fun i => result i (lit "body")) (seq 0 n).

(** A client that answers every search with what [search] says, and every
    completion with what [chat] says; all keys set. *)
Definition env_with
           (search : nat -> SearchRequest -> Exn + list SearchResult)
           (chat : nat -> ChatRequest -> Exn + ChatResponse) : Env :=
  {| getenv_EXA_API_KEY := Some (lit "exa-key");
     getenv_OPENROUTER_API_KEY := Some (lit "or-key");
     clock := fun n => (1700000000 + Z.of_nat n)%Z;
     strftime := fun _ format => format;
     isoformat := fun _ => lit "2023-11-14T22:13:20";
     exa_search := search;
     chat_create := chat;
     json_dumps := fun _ => lit "{}" |}.

Definition silent_chat : nat -> ChatRequest -> Exn + ChatResponse :=
  fun _ _ => inr (mkResponse [Some (lit "digest")]).

(** A search client that honours the limit. *)
Definition env_ok : Env :=
  env_with (fun _ q => inr (firstn (q_num_results q) (results 12)))
           silent_chat.

(** A search client that returns eleven results whatever the limit. *)
Definition env_over : Env :=
  env_with (fun _ _ => inr (results 11)) silent_chat.

(** A search client whose second call fails. *)
Definition timeout : Exn := mkExn ConnectionError (lit "timed out").

Definition env_flaky : Env :=
  env_with (fun n _ => if Nat.eqb n 1 then inl timeout else inr (results 1))
           silent_chat.

(** A completion client that fails. *)
Definition env_down : Env :=
  env_with (fun _ _ => inr (results 1)) (fun _ _ => inl timeout).

(** No key in the environment. *)
Definition env_nokeys : Env :=
  {| getenv_EXA_API_KEY := None;
     getenv_OPENROUTER_API_KEY := None;
     clock := fun n => (1700000000 + Z.of_nat n)%Z;
     strftime := fun _ format => format;
     isoformat := fun _ => lit "2023-11-14T22:13:20";
     exa_search := fun _ _ => inr (results 1);
     chat_create := silent_chat;
     json_dumps := fun _ => lit "{}" |}.

Definition fetcher : ExaFetcher.t :=
  ExaFetcher.mkFetcher (lit "exa-key") 10 7.

Definition analyzer : LLMAnalyzer.t :=
  LLMAnalyzer.mkAnalyzer (lit "or-key") Config.OPENROUTER_BASE_URL
                         Config.DEFAULT_MODEL.

(** A post with four highlights. *)
Definition post4 : Item :=
  {| source := Some (lit "X/Twitter");
     topic := Some (lit "LLM");
     url := Some (lit "https://x.com/a/status/1");
     name := None;
     title := Some (lit "A post");
     text := Some (lit "body");
     description := None;
     abstract := None;
     highlights := Some (Some [lit "first"; lit "second"; lit "third";
                               lit "fourth"]);
     published_date := Some (Some (lit "2024-05-01"));
     author := Some (Some (lit "a")) |}.

Definition bundle4 : Bundle :=
  {| x_posts := Some [post4];
     github_repos := Some [];
     arxiv_papers := Some [];
     fetch_date := Some (lit "2024-05-02T10:00:00");
     date_range := Some {| dr_start := Some (lit "2024-04-25");
                           dr_end := Some (lit "2024-05-02") |} |}.

End Examples.

(** ** main.py, continued *)

Module QuickFetch.

(** What [quick_fetch] returns: the list of one category, or the bundle. *)
Inductive Fetched : Type :=
| Items (items : list Item)
| All (data : Bundle).

(** [quick_fetch]; [source] and [topics] are [None] when the caller
    leaves them out. *)
Definition quick_fetch (env : Env) (source : option str)
           (topics : option (list str)) : M Fetched :=
  let source := get source (lit "all") in
  let topics :=
    match topics with
    | Some (t :: ts) => t :: ts
    | _ => firstn 3 Config.TOPICS
    end in
  fetcher <- ExaFetcher.__init__ env ;;
  if LLMAnalyzer.str_eqb source (lit "x")
  then items <- ExaFetcher.fetch_x_posts env fetcher topics ;;
       ret (Items items)
  else if LLMAnalyzer.str_eqb source (lit "github")
  then items <- ExaFetcher.fetch_github_trending env fetcher topics ;;
       ret (Items items)
  else if LLMAnalyzer.str_eqb source (lit "arxiv")
  then items <- ExaFetcher.fetch_arxiv_papers env fetcher topics ;;
       ret (Items items)
  else data <- ExaFetcher.fetch_all env fetcher topics ;;
       ret (All data).

End QuickFetch.

(** ** Vocabulary for effects and whole runs *)

Module Effects.

(** What a piece of the program adds to the world. *)
Record Delta : Type := mkDelta {
  d_out : list str;
  d_net : list NetCall;
  d_reads : nat;
  d_dirs : list str;
  d_files : list (str * str)
}.

Definition apply_delta (w : World) (d : Delta) : World :=
  mkWorld (stdout w ++ d_out d) (net w ++ d_net d)
          (d_reads d + clock_reads w) (dirs w ++ d_dirs d)
          (files w ++ d_files d).

(** [d1], then [d2]. *)
Definition then_delta (d1 d2 : Delta) : Delta :=
  mkDelta (d_out d1 ++ d_out d2) (d_net d1 ++ d_net d2)
          (d_reads d2 + d_reads d1) (d_dirs d1 ++ d_dirs d2)
          (d_files d1 ++ d_files d2).

Definition nothing : Delta := mkDelta [] [] 0 [] [].
Definition printed (lines : list str) : Delta := mkDelta lines [] 0 [] [].
Definition called (calls : list NetCall) : Delta := mkDelta [] calls 0 [] [].
Definition clock_read (n : nat) : Delta := mkDelta [] [] n [] [].
Definition made_dir (d : str) : Delta := mkDelta [] [] 0 [d] [].
Definition wrote (path content : str) : Delta :=
  mkDelta [] [] 0 [] [(path, content)].

(** [m], started in [w], returns [a] and adds [d] to the world. *)
Definition runs {A} (m : M A) (w : World) (a : A) (d : Delta) : Prop :=
  m w = (inr a, apply_delta w d).


(** The number of the calls for [ts], from network call [k] on, that
    raise. *)
Fixpoint failures (env : Env) (req : str -> SearchRequest) (k : nat)
         (ts : list str) : nat :=
  match ts with
  | [] => 0
  | t :: ts' =>
      match exa_search env k (req t) with
      | inl _ => 1
      | inr _ => 0
      end + failures env req (S k) ts'
  end.

(** What the guarded completion call of the analyzer returns when issued
    as network call [k]. *)
Definition completion_outcome (env : Env) (k : nat) (c : ChatRequest)
           (on_error : Exn -> str) : option str :=
  match chat_create env k c with
  | inl e => Some (on_error e)
  | inr r =>
      match choices r with
      | content :: _ => content
      | [] => Some (on_error (mkExn IndexError (lit "list index out of range")))
      end
  end.

(** The request [analyze_and_compile] submits for [data]. *)
Definition digest_request (self : LLMAnalyzer.t) (data : Bundle)
  : ChatRequest :=
  LLMAnalyzer.analysis_request self LLMAnalyzer.system_prompt
    (LLMAnalyzer.user_prompt data (LLMAnalyzer._prepare_context data)).

(** The topics [main] works on. *)
Definition main_topics (topics : option (list str)) : list str :=
  match topics with
  | Some (t :: ts) => t :: ts
  | _ => Config.TOPICS
  end.

(** The components [main] builds when both keys are set. *)
Definition main_fetcher (env : Env) : ExaFetcher.t :=
  ExaFetcher.mkFetcher (get (Config.EXA_API_KEY env) [])
    Config.SEARCH_SETTINGS_num_results Config.SEARCH_SETTINGS_days_back.

Definition main_analyzer (env : Env) : LLMAnalyzer.t :=
  LLMAnalyzer.mkAnalyzer (get (Config.OPENROUTER_API_KEY env) [])
    Config.OPENROUTER_BASE_URL Config.DEFAULT_MODEL.

(** The search calls of [fetch_all] started in [w]. *)
Definition searches (env : Env) (self : ExaFetcher.t) (topics : list str)
           (w : World) : list NetCall :=
  map (fun t => Search (x_req env self w t)) (firstn 3 topics)
    ++ map (fun t => Search (github_req env self w t)) (firstn 3 topics)
    ++ map (fun t => Search (arxiv_req env self w t)) (firstn 4 topics).

(** The lines [fetch_all] started in [w] prints. *)
Definition fetch_lines (env : Env) (self : ExaFetcher.t)
           (topics : list str) (w : World) : list str :=
  [lit "Fetching X/Twitter posts..."]
    ++ complaints env (x_req env self w) x_label
         (x_from w topics) (firstn 3 topics)
    ++ [lit "Fetching GitHub repositories..."]
    ++ complaints env (github_req env self w) github_label
         (github_from w topics) (firstn 3 topics)
    ++ [lit "Fetching arXiv papers..."]
    ++ complaints env (arxiv_req env self w) arxiv_label
         (arxiv_from w topics) (firstn 4 topics).

(** The bundle, the analysis and the report of a run of [main] started
    in [w] with both keys set. *)
Definition main_data (env : Env) (topics : option (list str)) (w : World)
  : Bundle :=
  fetched_bundle env (main_fetcher env) (main_topics topics) w.

Definition main_analysis (env : Env) (topics : option (list str))
           (w : World) : option str :=
  completion_outcome env
    (length (net w)
     + length (searches env (main_fetcher env) (main_topics topics) w))
    (digest_request (main_analyzer env) (main_data env topics w))
    (fun e => lit "Error generating analysis: " ++ exn_msg e).

Definition main_header (env : Env) (topics : option (list str)) (w : World)
  : str :=
  PyStr.text
    [ lit "# " ++ ReportGenerator.robot ++ lit " AI/ML/Robotics Weekly Digest";
      [];
      lit "**Generated**: "
        ++ strftime env (clock env (6 + clock_reads w))
             (lit "%B %d, %Y at %I:%M %p") ++ lit "  ";
      lit "**Period**: "
        ++ get (dr_start (get (date_range (main_data env topics w))
                              empty_dict)) (lit "N/A")
        ++ lit " to "
        ++ get (dr_end (get (date_range (main_data env topics w))
                            empty_dict)) (lit "N/A");
      [];
      lit "---";
      [];
      [] ].

Definition main_report (env : Env) (topics : option (list str)) (w : World)
  : str :=
  main_header env topics w
    ++ ReportGenerator.generate_stats_section (main_data env topics w)
    ++ fmt (main_analysis env topics w)
    ++ ReportGenerator.methodology.

(** The files a run of [main] started in [w] writes. *)
Definition main_files (env : Env) (topics : option (list str))
           (save_report save_raw : bool) (w : World) : list (str * str) :=
  (if save_report
   then [(ReportGenerator.path_join (lit "reports")
            (lit "ai_digest_"
               ++ strftime env (clock env (7 + clock_reads w))
                    (lit "%Y-%m-%d_%H-%M-%S")
               ++ lit ".md"),
          main_report env topics w)]
   else [])
  ++
  (if save_raw
   then [(ReportGenerator.path_join (lit "reports")
            (lit "raw_data_"
               ++ strftime env
                    (clock env ((if save_report then 8 else 7)
                                + clock_reads w))
                    (lit "%Y-%m-%d_%H-%M-%S")
               ++ lit ".json"),
          json_dumps env (main_data env topics w))]
   else []).

(** The first line [main] prints. *)
Definition banner : str :=
  lit "[bold blue]" ++ ReportGenerator.robot
    ++ lit " AI/ML/Robotics Weekly Digest Generator[/bold blue]" ++ nl
    ++ lit "[dim]Powered by Exa AI & OpenAI[/dim]".

End Effects.
Import Effects.

Module MoreExamples.

(** A search client whose every call fails. *)
Definition env_dead : Env :=
  Examples.env_with (fun _ _ => inl Examples.timeout) Examples.silent_chat.

(** A completion client that answers with no choice. *)
Definition env_mute : Env :=
  Examples.env_with (fun _ _ => inr (Examples.results 1))
                    (fun _ _ => inr (mkResponse [])).

(** The search key set to the empty string. *)
Definition env_blank : Env :=
  {| getenv_EXA_API_KEY := Some [];
     getenv_OPENROUTER_API_KEY := Some (lit "or-key");
     clock := fun n => (1700000000 + Z.of_nat n)%Z;
     strftime := fun _ format => format;
     isoformat := fun _ => lit "2023-11-14T22:13:20";
     exa_search := fun _ _ => inr (Examples.results 1);
     chat_create := Examples.silent_chat;
     json_dumps := fun _ => lit "{}" |}.

End MoreExamples.

(** * Properties *)

(** ** Strings *)

Lemma substr_refl (s : str) : substr s s.
Proof. exists [], []. now rewrite app_nil_r. Qed.

Lemma substr_app_l (s t u : str) : substr s t -> substr s (t ++ u).
Proof.
  intros (a & b & ->). exists a, (b ++ u). now rewrite <- !app_assoc.
Qed.

Lemma substr_app_r (s t u : str) : substr s t -> substr s (u ++ t).
Proof.
  intros (a & b & ->). exists (u ++ a), b. now rewrite <- !app_assoc.
Qed.

Lemma substr_trans (s t u : str) : substr s t -> substr t u -> substr s u.
Proof.
  intros (a & b & ->) (c & d & ->).
  exists (c ++ a), (b ++ d). now rewrite <- !app_assoc.
Qed.

Lemma join_cons (sep x : str) (xs : list str) :
  xs <> [] -> join sep (x :: xs) = x ++ sep ++ join sep xs.
Proof. destruct xs; [congruence | reflexivity]. Qed.

Lemma substr_join (sep x : str) (xs : list str) :
  In x xs -> substr x (join sep xs).
Proof.
  induction xs as [|y ys IH]; intros Hin; [contradiction|].
  destruct ys as [|z zs].
  - destruct Hin as [->|[]]. apply substr_refl.
  - rewrite join_cons by discriminate.
    destruct Hin as [->|Hin].
    + apply substr_app_l, substr_refl.
    + apply substr_app_r, substr_app_r, IH, Hin.
Qed.

Lemma startswith_spec (p s : str) :
  startswith p s = true <-> exists b, s = p ++ b.
Proof.
  revert s. induction p as [|a p IH]; intros s; simpl.
  - split; [exists s; reflexivity | reflexivity].
  - destruct s as [|c s]; [split; [discriminate | intros (b & Hb); discriminate]|].
    rewrite andb_true_iff, IH. unfold char_eqb. rewrite N.eqb_eq. split.
    + intros (-> & b & ->). now exists b.
    + intros (b & Hb). injection Hb as -> ->. split; [reflexivity | now exists b].
Qed.

Lemma substrb_spec (s t : str) : substrb s t = true <-> substr s t.
Proof.
  induction t as [|c t IH]; simpl.
  - rewrite orb_false_r, startswith_spec. split.
    + intros (b & ->). exists [], b. reflexivity.
    + intros (a & b & H). destruct a; [now exists b|discriminate].
  - rewrite orb_true_iff, startswith_spec, IH. split.
    + intros [(b & ->) | (a & b & ->)].
      * exists [], b. reflexivity.
      * exists (c :: a), b. reflexivity.
    + intros (a & b & H). destruct a as [|c' a]; simpl in H.
      * left. now exists b.
      * right. injection H as -> ->. now exists a, b.
Qed.

Lemma not_substr (s t : str) : substrb s t = false -> ~ substr s t.
Proof.
  intros Hb Hs. apply substrb_spec in Hs. congruence.
Qed.

Example replace_run :
  replace (lit "ab") (lit "-") (lit "xababyab") = lit "x--y-" /\
  replace (lit "aa") [] (lit "aaa") = lit "a".
Proof. split; reflexivity. Qed.

Example split_run :
  split 47%N (lit "a//b") = [lit "a"; []; lit "b"] /\ split 47%N [] = [[]].
Proof. split; reflexivity. Qed.

Example extract_repo_name_run :
  ExaFetcher._extract_repo_name (lit "https://github.com/foo/bar/tree/main")
  = lit "foo/bar" /\
  ExaFetcher._extract_repo_name (lit "https://github.com/foo")
  = lit "https://github.com/foo" /\
  ExaFetcher._extract_repo_name (lit "https://example.org/x")
  = lit "https:/".
Proof. repeat split; reflexivity. Qed.

(** A numeral printed by [str] reads back as the number. *)
Lemma uint_of_str_of_uint (d : uint) : uint_of_str (str_of_uint d) = Some d.
Proof.
  induction d; simpl; try reflexivity; now rewrite IHd.
Qed.

Lemma str_of_uint_nil (d : uint) : str_of_uint d = [] -> d = Nil.
Proof. destruct d; simpl; [reflexivity | discriminate ..]. Qed.

Lemma nat_of_str_of_nat (n : nat) : nat_of_str (str_of_nat n) = Some n.
Proof.
  unfold nat_of_str, str_of_nat.
  destruct (str_of_uint (Nat.to_uint n)) as [|c s] eqn:E.
  - apply str_of_uint_nil in E.
    assert (H : n = 0) by (rewrite <- (Unsigned.of_to n), E; reflexivity).
    subst n. discriminate E.
  - rewrite <- E, uint_of_str_of_uint. simpl. now rewrite Unsigned.of_to.
Qed.

Lemma excerpt_firstn (n : nat) (t : option str) :
  ExaFetcher.excerpt n t = firstn n (get t []).
Proof.
  unfold ExaFetcher.excerpt, slice_to.
  destruct t as [[|c s]|]; simpl; try reflexivity; now rewrite firstn_nil.
Qed.

Lemma excerpt_capped (n : nat) (t : option str) :
  capped_at n t (ExaFetcher.excerpt n t).
Proof.
  split; [apply excerpt_firstn|].
  rewrite excerpt_firstn. apply length_firstn.
Qed.

(** ** The fetch loops *)

Section CategoryFacts.

Variable env : Env.
Variable req : str -> SearchRequest.
Variable mk : str -> SearchResult -> Item.
Variable label : str.

Lemma fold_left_append (t : str) (rs : list SearchResult) (acc : list Item) :
  fold_left (fun acc result => acc ++ [mk t result]) rs acc
  = acc ++ map (mk t) rs.
Proof.
  revert acc. induction rs as [|r rs IH]; intros acc; simpl.
  - now rewrite app_nil_r.
  - rewrite IH, <- app_assoc. reflexivity.
Qed.

Lemma turn_run (t : str) (acc : list Item) (w : World) :
  turn env req mk label t acc w
  = (inr (acc ++ gathered env req mk (length (net w)) [t]),
     mkWorld (stdout w ++ complaints env req label (length (net w)) [t])
             (net w ++ [Search (req t)]) (clock_reads w)
             (dirs w) (files w)).
Proof.
  unfold turn, try_except, bind, search_and_contents, print, ret. simpl.
  destruct (exa_search env (length (net w)) (req t)) as [e|rs]; simpl.
  - now rewrite !app_nil_r.
  - rewrite fold_left_append, !app_nil_r. reflexivity.
Qed.

Lemma loop_run (ts : list str) (acc : list Item) (w : World) :
  for_each ts (turn env req mk label) acc w
  = (inr (acc ++ gathered env req mk (length (net w)) ts),
     mkWorld (stdout w ++ complaints env req label (length (net w)) ts)
             (net w ++ map (fun t => Search (req t)) ts) (clock_reads w)
             (dirs w) (files w)).
Proof.
  revert acc w. induction ts as [|t ts IH]; intros acc w.
  - simpl. unfold ret. rewrite !app_nil_r. now destruct w.
  - cbn [for_each]. unfold bind. rewrite turn_run, IH.
    cbn [stdout net clock_reads dirs files gathered complaints map].
    rewrite length_app, Nat.add_1_r, !app_nil_r, <- !app_assoc.
    reflexivity.
Qed.

Lemma gathered_bounded (limit k : nat) (ts : list str) :
  honours_limit env ->
  (forall t, q_num_results (req t) = limit) ->
  length (gathered env req mk k ts) <= length ts * limit.
Proof.
  intros Hapi Hreq. revert k.
  induction ts as [|t ts IH]; intros k; simpl; [lia|].
  rewrite length_app. specialize (IH (S k)).
  destruct (exa_search env k (req t)) as [e|rs] eqn:E; simpl.
  - lia.
  - apply Hapi in E. rewrite Hreq in E. rewrite length_map. lia.
Qed.

Lemma gathered_keeps (k : nat) (ts : list str) :
  forall i t rs r,
    nth_error ts i = Some t ->
    exa_search env (k + i) (req t) = inr rs ->
    In r rs -> In (mk t r) (gathered env req mk k ts).
Proof.
  revert k. induction ts as [|t0 ts IH]; intros k i t rs r Hnth Hs Hin.
  - destruct i; discriminate.
  - simpl. apply in_or_app. destruct i as [|i]; simpl in Hnth.
    + injection Hnth as ->. rewrite Nat.add_0_r in Hs. rewrite Hs.
      left. now apply in_map.
    + right. apply (IH (S k) i t rs r); auto.
      now rewrite Nat.add_succ_comm.
Qed.

Lemma complaints_logged (k : nat) (ts : list str) :
  forall i t e,
    nth_error ts i = Some t ->
    exa_search env (k + i) (req t) = inl e ->
    In (label ++ t ++ lit "': " ++ exn_msg e) (complaints env req label k ts).
Proof.
  revert k. induction ts as [|t0 ts IH]; intros k i t e Hnth Hs.
  - destruct i; discriminate.
  - simpl. apply in_or_app. destruct i as [|i]; simpl in Hnth.
    + injection Hnth as ->. rewrite Nat.add_0_r in Hs. rewrite Hs.
      left. now left.
    + right. apply (IH (S k) i t e); auto.
      now rewrite Nat.add_succ_comm.
Qed.

Lemma gathered_from (k : nat) (ts : list str) (it : Item) :
  In it (gathered env req mk k ts) ->
  exists r, fetched_from env req mk k ts it r.
Proof.
  revert k. induction ts as [|t ts IH]; intros k Hin; [contradiction|].
  simpl in Hin. apply in_app_or in Hin. destruct Hin as [Hin|Hin].
  - destruct (exa_search env k (req t)) as [e|rs] eqn:E; [contradiction|].
    apply in_map_iff in Hin. destruct Hin as (r & <- & Hr).
    exists r, 0, t, rs. rewrite Nat.add_0_r. auto.
  - apply IH in Hin. destruct Hin as (r & i & t' & rs & H1 & H2 & H3 & H4).
    exists r, (S i), t', rs. rewrite <- Nat.add_succ_comm. auto.
Qed.

End CategoryFacts.

Lemma fetch_x_posts_run env self topics w :
  ExaFetcher.fetch_x_posts env self topics w
  = (inr (gathered env (request_at env self (clock_reads w) ExaFetcher.x_query)
            ExaFetcher.x_post (length (net w)) (firstn 3 topics)),
     mkWorld
       (stdout w
          ++ complaints env
               (request_at env self (clock_reads w) ExaFetcher.x_query)
               x_label (length (net w)) (firstn 3 topics))
       (net w
          ++ map (fun t => Search (request_at env self (clock_reads w)
                                     ExaFetcher.x_query t))
               (firstn 3 topics))
       (S (clock_reads w)) (dirs w) (files w)).
Proof.
  unfold ExaFetcher.fetch_x_posts, ExaFetcher._get_date_range, bind,
    datetime_now, ret.
  cbv beta iota.
  change (for_each (firstn 3 topics) _ [])
    with (for_each (firstn 3 topics)
            (turn env (request_at env self (clock_reads w) ExaFetcher.x_query)
               ExaFetcher.x_post x_label) []).
  rewrite loop_run. reflexivity.
Qed.

Lemma fetch_github_trending_run env self topics w :
  ExaFetcher.fetch_github_trending env self topics w
  = (inr (gathered env
            (request_at env self (clock_reads w) ExaFetcher.github_query)
            ExaFetcher.github_repo (length (net w)) (firstn 3 topics)),
     mkWorld
       (stdout w
          ++ complaints env
               (request_at env self (clock_reads w) ExaFetcher.github_query)
               github_label (length (net w)) (firstn 3 topics))
       (net w
          ++ map (fun t => Search (request_at env self (clock_reads w)
                                     ExaFetcher.github_query t))
               (firstn 3 topics))
       (S (clock_reads w)) (dirs w) (files w)).
Proof.
  unfold ExaFetcher.fetch_github_trending, ExaFetcher._get_date_range, bind,
    datetime_now, ret.
  cbv beta iota.
  change (for_each (firstn 3 topics) _ [])
    with (for_each (firstn 3 topics)
            (turn env
               (request_at env self (clock_reads w) ExaFetcher.github_query)
               ExaFetcher.github_repo github_label) []).
  rewrite loop_run. reflexivity.
Qed.

Lemma fetch_arxiv_papers_run env self topics w :
  ExaFetcher.fetch_arxiv_papers env self topics w
  = (inr (gathered env
            (request_at env self (clock_reads w) ExaFetcher.arxiv_query)
            ExaFetcher.arxiv_paper (length (net w)) (firstn 4 topics)),
     mkWorld
       (stdout w
          ++ complaints env
               (request_at env self (clock_reads w) ExaFetcher.arxiv_query)
               arxiv_label (length (net w)) (firstn 4 topics))
       (net w
          ++ map (fun t => Search (request_at env self (clock_reads w)
                                     ExaFetcher.arxiv_query t))
               (firstn 4 topics))
       (S (clock_reads w)) (dirs w) (files w)).
Proof.
  unfold ExaFetcher.fetch_arxiv_papers, ExaFetcher._get_date_range, bind,
    datetime_now, ret.
  cbv beta iota.
  change (for_each (firstn 4 topics) _ [])
    with (for_each (firstn 4 topics)
            (turn env
               (request_at env self (clock_reads w) ExaFetcher.arxiv_query)
               ExaFetcher.arxiv_paper arxiv_label) []).
  rewrite loop_run. reflexivity.
Qed.

Lemma fetch_all_run env self topics w :
  ExaFetcher.fetch_all env self topics w
  = (inr (fetched_bundle env self topics w),
     fetched_world env self topics w).
Proof.
  unfold ExaFetcher.fetch_all.
  unfold bind at 1. unfold print at 1. cbv beta iota.
  unfold bind at 1. rewrite fetch_x_posts_run. cbv beta iota.
  unfold bind at 1. unfold print at 1. cbv beta iota.
  unfold bind at 1. rewrite fetch_github_trending_run. cbv beta iota.
  unfold bind at 1. unfold print at 1. cbv beta iota.
  unfold bind at 1. rewrite fetch_arxiv_papers_run. cbv beta iota.
  unfold bind, datetime_now, ExaFetcher._get_date_range, ret.
  cbn [stdout net clock_reads dirs files fst snd].
  unfold fetched_bundle, fetched_world, x_req, github_req, arxiv_req,
    x_from, github_from, arxiv_from, dates.
  rewrite !length_app, !length_map, <- !app_assoc.
  cbn [app length Nat.add fst snd]. reflexivity.
Qed.

Lemma init_settings env self w0 w1 :
  ExaFetcher.__init__ env w0 = (inr self, w1) ->
  ExaFetcher.num_results self = 10 /\ ExaFetcher.days_back self = 7.
Proof.
  unfold ExaFetcher.__init__, raise, ret.
  destruct (negb (truthy (Config.EXA_API_KEY env))); [discriminate|].
  intros H. injection H as <- _. split; reflexivity.
Qed.

Lemma length_firstn_min {A} (n : nat) (l : list A) :
  length (firstn n l) = Nat.min (length l) n.
Proof. rewrite length_firstn. apply Nat.min_comm. Qed.

(** ** Fetcher: the claims *)

(** C1, as stated, fails: nothing in the fetcher cuts a response down to
    the result limit.  With a client that answers eleven results, one
    topic yields eleven posts, more than one times ten. *)
Lemma fetch_all_exceeds_limit :
  ExaFetcher.__init__ Examples.env_over empty_world
  = (inr Examples.fetcher, empty_world)
  /\ exists b w',
      ExaFetcher.fetch_all Examples.env_over Examples.fetcher [lit "LLM"]
        empty_world = (inr b, w')
      /\ ~ (length (get (x_posts b) [])
            <= Nat.min (length [lit "LLM"]) 3 * 10).
Proof.
  split; [reflexivity|].
  eexists. eexists. split; [apply fetch_all_run|].
  vm_compute. lia.
Qed.

(** C1 (amended): provided every response of the search client holds at
    most [num_results] results, [fetch_all] on a fetcher built by
    [__init__] returns a bundle whose x_posts and github_repos hold at
    most min(len(topics), 3) * 10 records and whose arxiv_papers hold at
    most min(len(topics), 4) * 10. *)
Theorem fetch_all_lengths_bounded env self topics w w0 w1 :
  honours_limit env ->
  ExaFetcher.__init__ env w0 = (inr self, w1) ->
  exists b w',
    ExaFetcher.fetch_all env self topics w = (inr b, w') /\
    length (get (x_posts b) []) <= Nat.min (length topics) 3 * 10 /\
    length (get (github_repos b) []) <= Nat.min (length topics) 3 * 10 /\
    length (get (arxiv_papers b) []) <= Nat.min (length topics) 4 * 10.
Proof.
  intros Hapi Hinit. apply init_settings in Hinit. destruct Hinit as [Hn _].
  eexists. eexists. split; [apply fetch_all_run|].
  unfold fetched_bundle. cbn [x_posts github_repos arxiv_papers get].
  rewrite <- !length_firstn_min.
  repeat split; apply gathered_bounded; auto.
Qed.

Lemma fetch_all_lengths_bounded_witness :
  exists b w',
    ExaFetcher.fetch_all Examples.env_ok Examples.fetcher Config.TOPICS
      empty_world = (inr b, w') /\
    length (get (x_posts b) []) <= Nat.min (length Config.TOPICS) 3 * 10 /\
    length (get (github_repos b) []) <= Nat.min (length Config.TOPICS) 3 * 10 /\
    length (get (arxiv_papers b) []) <= Nat.min (length Config.TOPICS) 4 * 10.
Proof.
  apply (@fetch_all_lengths_bounded Examples.env_ok Examples.fetcher
           Config.TOPICS empty_world empty_world empty_world).
  - intros n q rs H. simpl in H. injection H as <-.
    rewrite length_firstn. lia.
  - reflexivity.
Defined.

(** C2: whatever the search client does, [fetch_all] returns a bundle and
    raises nothing; in each category every record of a topic whose call
    returned is in the bundle, every call that raised left its line on
    the output, and each topic of the prefix was called once. *)
Theorem fetch_all_keeps_partial_results env self topics w :
  exists b w',
    ExaFetcher.fetch_all env self topics w = (inr b, w') /\
    keeps_partial env (x_req env self w) ExaFetcher.x_post x_label
      (x_from w topics) (firstn 3 topics) (get (x_posts b) []) (stdout w') /\
    keeps_partial env (github_req env self w) ExaFetcher.github_repo
      github_label (github_from w topics) (firstn 3 topics)
      (get (github_repos b) []) (stdout w') /\
    keeps_partial env (arxiv_req env self w) ExaFetcher.arxiv_paper
      arxiv_label (arxiv_from w topics) (firstn 4 topics)
      (get (arxiv_papers b) []) (stdout w') /\
    length (net w')
    = length (net w) + (length (firstn 3 topics) + length (firstn 3 topics)
                        + length (firstn 4 topics)).
Proof.
  eexists. eexists. split; [apply fetch_all_run|].
  unfold fetched_bundle, fetched_world.
  cbn [x_posts github_repos arxiv_papers get stdout net].
  repeat split.
  - apply gathered_keeps.
  - intros i t e Hn Hs. rewrite !in_app_iff. right. right. left.
    eapply complaints_logged; eauto.
  - apply gathered_keeps.
  - intros i t e Hn Hs. rewrite !in_app_iff. do 4 right. left.
    eapply complaints_logged; eauto.
  - apply gathered_keeps.
  - intros i t e Hn Hs. rewrite !in_app_iff. do 6 right.
    eapply complaints_logged; eauto.
  - rewrite !length_app, !length_map. lia.
Qed.

(** A run of C2: the call for the second topic times out; the posts of
    the first and third topics are in the bundle, and the failure is on
    the output. *)
Example flaky_run :
  exists b w',
    ExaFetcher.fetch_all Examples.env_flaky Examples.fetcher
      [lit "LLM"; lit "GPT"; lit "robotics"] empty_world = (inr b, w') /\
    map topic (get (x_posts b) []) = [Some (lit "LLM"); Some (lit "robotics")] /\
    In (lit "Error fetching X posts for 'GPT': timed out") (stdout w').
Proof.
  eexists. eexists. split; [apply fetch_all_run|].
  split; [reflexivity|]. vm_compute. tauto.
Qed.

(** C4: [fetch_all] returns a bundle in which every record was built from
    a result the search client returned, and holds as its content that
    result's text cut at the cap of its category: the first 500
    characters for a post ([text]) and for a repository ([description]),
    the first 800 for a paper ([abstract]); a text longer than the cap
    gives exactly cap characters, a shorter or missing one is kept
    whole. *)
Theorem fetched_excerpts_capped env self topics w :
  exists b w',
    ExaFetcher.fetch_all env self topics w = (inr b, w') /\
    (forall it, In it (get (x_posts b) []) ->
       exists r e,
         fetched_from env (x_req env self w) ExaFetcher.x_post
           (x_from w topics) (firstn 3 topics) it r /\
         text it = Some e /\ capped_at 500 (r_text r) e) /\
    (forall it, In it (get (github_repos b) []) ->
       exists r e,
         fetched_from env (github_req env self w) ExaFetcher.github_repo
           (github_from w topics) (firstn 3 topics) it r /\
         description it = Some e /\ capped_at 500 (r_text r) e) /\
    (forall it, In it (get (arxiv_papers b) []) ->
       exists r e,
         fetched_from env (arxiv_req env self w) ExaFetcher.arxiv_paper
           (arxiv_from w topics) (firstn 4 topics) it r /\
         abstract it = Some e /\ capped_at 800 (r_text r) e).
Proof.
  eexists. eexists. split; [apply fetch_all_run|].
  unfold fetched_bundle. cbn [x_posts github_repos arxiv_papers get].
  repeat split; intros it Hin; apply gathered_from in Hin;
    destruct Hin as (r & Hr); exists r;
    pose proof Hr as (i & t & rs & _ & _ & _ & ->);
    eexists; (split; [exact Hr|]); (split; [reflexivity|]);
    apply excerpt_capped.
Qed.

(** A run of C4: a post of 600 characters is cut to 500, a paper of 900
    to 800, and a text of 3 characters is kept. *)
Example excerpt_runs :
  length (ExaFetcher.excerpt 500 (Some (repeat 97%N 600))) = 500 /\
  length (ExaFetcher.excerpt 800 (Some (repeat 97%N 900))) = 800 /\
  ExaFetcher.excerpt 500 (Some (lit "abc")) = lit "abc" /\
  ExaFetcher.excerpt 500 None = [].
Proof. repeat split; reflexivity. Qed.

(** C9: the network calls of [fetch_all] are, in this order, one search
    per topic of the first three for posts, one per topic of the first
    three for repositories and one per topic of the first four for
    papers, each with the query of its category; nothing else is called.
    The same holds of each category fetch on its own. *)
Theorem fetch_all_queries_prefixes env self topics w :
  (exists b w',
     ExaFetcher.fetch_all env self topics w = (inr b, w') /\
     net w'
     = net w
         ++ map (fun t => Search (x_req env self w t)) (firstn 3 topics)
         ++ map (fun t => Search (github_req env self w t)) (firstn 3 topics)
         ++ map (fun t => Search (arxiv_req env self w t)) (firstn 4 topics))
  /\
  (forall t,
     q_query (x_req env self w t) = ExaFetcher.x_query t /\
     q_query (github_req env self w t) = ExaFetcher.github_query t /\
     q_query (arxiv_req env self w t) = ExaFetcher.arxiv_query t)
  /\
  net (snd (ExaFetcher.fetch_x_posts env self topics w))
  = net w ++ map (fun t => Search (x_req env self w t)) (firstn 3 topics)
  /\
  net (snd (ExaFetcher.fetch_github_trending env self topics w))
  = net w
      ++ map (fun t => Search (request_at env self (clock_reads w)
                                 ExaFetcher.github_query t))
           (firstn 3 topics)
  /\
  net (snd (ExaFetcher.fetch_arxiv_papers env self topics w))
  = net w
      ++ map (fun t => Search (request_at env self (clock_reads w)
                                 ExaFetcher.arxiv_query t))
           (firstn 4 topics).
Proof.
  split; [|split; [|split; [|split]]].
  - eexists. eexists. split; [apply fetch_all_run|]. reflexivity.
  - intros t. repeat split.
  - rewrite fetch_x_posts_run. reflexivity.
  - rewrite fetch_github_trending_run. reflexivity.
  - rewrite fetch_arxiv_papers_run. reflexivity.
Qed.

(** A run of C9: of the eight configured topics, posts and repositories
    are searched for the first three and papers for the first four. *)
Example default_topics_run :
  map (fun c => match c with Search q => q_query q | Chat _ => [] end)
      (net (snd (ExaFetcher.fetch_all Examples.env_ok Examples.fetcher
                   Config.TOPICS empty_world)))
  = map ExaFetcher.x_query
        [lit "LLM"; lit "large language model";
         lit "AI artificial intelligence"]
    ++ map ExaFetcher.github_query
        [lit "LLM"; lit "large language model";
         lit "AI artificial intelligence"]
    ++ map ExaFetcher.arxiv_query
        [lit "LLM"; lit "large language model";
         lit "AI artificial intelligence"; lit "robotics"].
Proof. vm_compute. reflexivity. Qed.

(** ** Formatter: the claims *)

(** C3: in the stats section of any bundle the three count cells read
    back as the lengths of the bundle's three sequences (zero for an
    absent one) and the total cell as their sum; for the empty bundle
    every cell is 0. *)
Theorem stats_counts_match (data : Bundle) :
  (exists x github arxiv total,
     ReportGenerator.generate_stats_section data
     = stats_table x github arxiv total /\
     nat_of_str x = Some (length (get (x_posts data) [])) /\
     nat_of_str github = Some (length (get (github_repos data) [])) /\
     nat_of_str arxiv = Some (length (get (arxiv_papers data) [])) /\
     nat_of_str total
     = Some (length (get (x_posts data) [])
             + length (get (github_repos data) [])
             + length (get (arxiv_papers data) [])))
  /\
  ReportGenerator.generate_stats_section empty_bundle
  = stats_table (lit "0") (lit "0") (lit "0") (lit "0").
Proof.
  split; [|reflexivity].
  exists (str_of_nat (length (get (x_posts data) []))),
         (str_of_nat (length (get (github_repos data) []))),
         (str_of_nat (length (get (arxiv_papers data) []))),
         (str_of_nat (length (get (x_posts data) [])
                      + length (get (github_repos data) [])
                      + length (get (arxiv_papers data) []))).
  split; [reflexivity|].
  repeat split; apply nat_of_str_of_nat.
Qed.

(** A run of C3: two posts, one repository, no paper. *)
Example stats_run :
  ReportGenerator.generate_stats_section
    (mkBundle (Some [Examples.post4; Examples.post4]) (Some [Examples.post4])
              (Some []) None None)
  = stats_table (lit "2") (lit "1") (lit "0") (lit "3").
Proof. reflexivity. Qed.

(** C7: for any bundle and any narrative, [format_full_report] returns
    header, stats section, narrative and footer in this order: the
    header holds the line with the bundle's date range (N/A for a missing
    bound), the stats section is that of the bundle, and the narrative is
    there unchanged. *)
Theorem report_contains_parts env data narrative w :
  exists report w',
    ReportGenerator.format_full_report env data (Some narrative) w
    = (inr report, w') /\
    exists header,
      report
      = header ++ ReportGenerator.generate_stats_section data
               ++ narrative ++ ReportGenerator.methodology /\
      substr
        (lit "**Period**: "
           ++ get (dr_start (get (date_range data) empty_dict)) (lit "N/A")
           ++ lit " to "
           ++ get (dr_end (get (date_range data) empty_dict)) (lit "N/A"))
        header.
Proof.
  unfold ReportGenerator.format_full_report, ReportGenerator.generate_header,
    bind, datetime_now, ret.
  eexists. eexists. split; [reflexivity|].
  eexists. split; [reflexivity|].
  apply substr_join. do 3 right. left. reflexivity.
Qed.

(** A run of C7: the report of a bundle dated 2024-04-25 to 2024-05-02
    holds the period line, the stats table and the narrative. *)
Example report_run :
  let report :=
    match ReportGenerator.format_full_report Examples.env_ok
            Examples.bundle4 (Some (lit "NARRATIVE")) empty_world with
    | (inr r, _) => r
    | (inl _, _) => []
    end in
  substrb (lit "**Period**: 2024-04-25 to 2024-05-02") report = true /\
  substrb (stats_table (lit "1") (lit "0") (lit "0") (lit "1")
             ++ lit "NARRATIVE") report = true.
Proof. vm_compute. split; reflexivity. Qed.

(** ** Configuration: the claims *)

(** C5: with no search key in the environment [ExaFetcher.__init__]
    raises ValueError and leaves the world as it was; with no completion
    key [LLMAnalyzer.__init__] does the same; and with either key absent
    [main] returns nothing and has made no network call. *)
Theorem missing_key_is_fatal env w :
  (getenv_EXA_API_KEY env = None ->
   ExaFetcher.__init__ env w
   = (inl (mkExn ValueError
             (lit "EXA_API_KEY not set. Please add it to your .env file.")),
      w))
  /\
  (getenv_OPENROUTER_API_KEY env = None ->
   forall model,
     LLMAnalyzer.__init__ env model w
     = (inl (mkExn ValueError
               (lit "OPENROUTER_API_KEY not set. Please add it to your .env file.")),
        w))
  /\
  (getenv_EXA_API_KEY env = None \/ getenv_OPENROUTER_API_KEY env = None ->
   forall topics save_report save_raw display,
   exists w',
     Main.main env topics save_report save_raw display w = (inr None, w') /\
     net w' = net w).
Proof.
  split; [|split].
  - intros H. unfold ExaFetcher.__init__, Config.EXA_API_KEY.
    rewrite H. reflexivity.
  - intros H model. unfold LLMAnalyzer.__init__, Config.OPENROUTER_API_KEY.
    rewrite H. reflexivity.
  - intros H topics save_report save_raw display.
    unfold Main.main, bind, try_except_ValueError, print, ret,
      ExaFetcher.__init__, LLMAnalyzer.__init__, raise,
      Config.EXA_API_KEY, Config.OPENROUTER_API_KEY.
    cbv beta iota.
    destruct (truthy (getenv_EXA_API_KEY env)) eqn:Ex; cbn.
    + destruct H as [H|H].
      * rewrite H in Ex. discriminate.
      * rewrite H. cbn. eexists. split; reflexivity.
    + eexists. split; reflexivity.
Qed.

Lemma missing_key_is_fatal_witness :
  ExaFetcher.__init__ Examples.env_nokeys empty_world
  = (inl (mkExn ValueError
            (lit "EXA_API_KEY not set. Please add it to your .env file.")),
     empty_world)
  /\
  exists w',
    Main.main Examples.env_nokeys None true false true empty_world
    = (inr None, w') /\ net w' = net empty_world.
Proof.
  destruct (missing_key_is_fatal Examples.env_nokeys empty_world)
    as (Hfetcher & _ & Hmain).
  split.
  - apply Hfetcher. reflexivity.
  - apply Hmain. left. reflexivity.
Defined.

(** ** Analyzer: the claims *)

Lemma first_content_total (r : ChatResponse) (w : World) :
  (exists v, LLMAnalyzer.first_content r w = (inr v, w)) \/
  (exists e, LLMAnalyzer.first_content r w = (inl e, w)).
Proof.
  unfold LLMAnalyzer.first_content, ret, raise.
  destruct (choices r); [right|left]; eexists; reflexivity.
Qed.

Lemma guarded_completion_total env c (handler : Exn -> option str) w :
  exists v w',
    try_except
      (response <- chat_completions_create env c ;;
       LLMAnalyzer.first_content response)
      (fun e => ret (handler e)) w
    = (inr v, w') /\ net w' = net w ++ [Chat c].
Proof.
  unfold try_except, bind, chat_completions_create, ret.
  destruct (chat_create env (length (net w)) c) as [e|r].
  - eexists. eexists. split; reflexivity.
  - match goal with
    | |- context [LLMAnalyzer.first_content r ?w1] =>
        destruct (first_content_total r w1) as [(v & ->)|(e & ->)]
    end; eexists; eexists; split; reflexivity.
Qed.

Lemma guarded_completion_failure env c (handler : Exn -> option str) w e :
  chat_create env (length (net w)) c = inl e ->
  exists w',
    try_except
      (response <- chat_completions_create env c ;;
       LLMAnalyzer.first_content response)
      (fun e => ret (handler e)) w
    = (inr (handler e), w').
Proof.
  intros H. unfold try_except, bind, chat_completions_create, ret.
  rewrite H. eexists. reflexivity.
Qed.

(** C6: [analyze_and_compile] and [summarize_single_source] always
    return a value and never raise; when the completion call raises [e],
    the value is the error string built from [e]. *)
Theorem analyzer_failure_is_inline env self data source_type items w :
  (exists v w',
     LLMAnalyzer.analyze_and_compile env self data w = (inr v, w'))
  /\
  (exists v w',
     LLMAnalyzer.summarize_single_source env self source_type items w
     = (inr v, w'))
  /\
  (forall e,
     chat_create env (length (net w))
       (LLMAnalyzer.analysis_request self LLMAnalyzer.system_prompt
          (LLMAnalyzer.user_prompt data (LLMAnalyzer._prepare_context data)))
     = inl e ->
     exists w',
       LLMAnalyzer.analyze_and_compile env self data w
       = (inr (Some (lit "Error generating analysis: " ++ exn_msg e)), w'))
  /\
  (forall e,
     items <> [] ->
     chat_create env (length (net w))
       (LLMAnalyzer.summary_request self
          (LLMAnalyzer.summary_prompt source_type
             (LLMAnalyzer._format_items items)))
     = inl e ->
     exists w',
       LLMAnalyzer.summarize_single_source env self source_type items w
       = (inr (Some (lit "Error summarizing " ++ source_type ++ lit ": "
                       ++ exn_msg e)), w')).
Proof.
  split; [|split; [|split]].
  - unfold LLMAnalyzer.analyze_and_compile.
    destruct (guarded_completion_total env
                (LLMAnalyzer.analysis_request self LLMAnalyzer.system_prompt
                   (LLMAnalyzer.user_prompt data
                      (LLMAnalyzer._prepare_context data)))
                (fun e => Some (lit "Error generating analysis: "
                                  ++ exn_msg e)) w)
      as (v & w' & H & _).
    exists v, w'. exact H.
  - unfold LLMAnalyzer.summarize_single_source.
    destruct items as [|item rest].
    + eexists. eexists. reflexivity.
    + destruct (guarded_completion_total env
                  (LLMAnalyzer.summary_request self
                     (LLMAnalyzer.summary_prompt source_type
                        (LLMAnalyzer._format_items (item :: rest))))
                  (fun e => Some (lit "Error summarizing " ++ source_type
                                    ++ lit ": " ++ exn_msg e)) w)
        as (v & w' & H & _).
      exists v, w'. exact H.
  - intros e H. unfold LLMAnalyzer.analyze_and_compile.
    apply (guarded_completion_failure env _
             (fun e => Some (lit "Error generating analysis: "
                               ++ exn_msg e)) w H).
  - intros e Hne H. unfold LLMAnalyzer.summarize_single_source.
    destruct items as [|item rest]; [congruence|].
    apply (guarded_completion_failure env _
             (fun e => Some (lit "Error summarizing " ++ source_type
                               ++ lit ": " ++ exn_msg e)) w H).
Qed.

Lemma analyzer_failure_is_inline_witness :
  (exists w',
     LLMAnalyzer.analyze_and_compile Examples.env_down Examples.analyzer
       Examples.bundle4 empty_world
     = (inr (Some (lit "Error generating analysis: timed out")), w'))
  /\
  (exists w',
     LLMAnalyzer.summarize_single_source Examples.env_down Examples.analyzer
       (lit "x_posts") [Examples.post4] empty_world
     = (inr (Some (lit "Error summarizing x_posts: timed out")), w')).
Proof.
  destruct (analyzer_failure_is_inline Examples.env_down Examples.analyzer
              Examples.bundle4 (lit "x_posts") [Examples.post4] empty_world)
    as (_ & _ & Hanalysis & Hsummary).
  split.
  - apply (Hanalysis Examples.timeout). reflexivity.
  - apply (Hsummary Examples.timeout); [discriminate | reflexivity].
Defined.

(** C10: on the empty item list [summarize_single_source] returns
    "No {source_type} data available." and leaves the world as it was:
    no completion request is issued. *)
Theorem summarize_nothing env self source_type w :
  LLMAnalyzer.summarize_single_source env self source_type [] w
  = (inr (Some (lit "No " ++ source_type ++ lit " data available.")), w).
Proof. reflexivity. Qed.

Lemma substr_line (prefix s : str) (lines : list str) :
  In (prefix ++ s) lines -> substr s (PyStr.text lines).
Proof.
  intros Hin. apply substr_trans with (prefix ++ s).
  - apply substr_app_r, substr_refl.
  - now apply substr_join.
Qed.

Lemma entries_in (item : Item) (items : list Item) (i0 : nat) :
  In item items ->
  exists i, In (LLMAnalyzer.entry i item) (LLMAnalyzer.entries i0 items).
Proof.
  revert i0. induction items as [|x xs IH]; intros i0 Hin; [contradiction|].
  destruct Hin as [->|Hin].
  - exists i0. now left.
  - destruct (IH (S i0) Hin) as (i & Hi). exists i. now right.
Qed.

Lemma format_items_carries (item : Item) (items : list Item) :
  In item items ->
  exists i, substr (LLMAnalyzer.entry i item) (LLMAnalyzer._format_items items).
Proof.
  intros Hin. destruct (entries_in item items 1 Hin) as (i & Hi).
  exists i. now apply substr_join.
Qed.

Lemma nonempty_in (item : Item) (field : option (list Item)) :
  In item (get field []) -> LLMAnalyzer.nonempty field = true.
Proof.
  destruct field as [[|x xs]|]; simpl; [contradiction | reflexivity | contradiction].
Qed.

Lemma prepare_context_sections (data : Bundle) (field : option (list Item)) :
  LLMAnalyzer.nonempty field = true ->
  field = x_posts data \/ field = github_repos data
    \/ field = arxiv_papers data ->
  substr (LLMAnalyzer._format_items (get field []))
         (LLMAnalyzer._prepare_context data).
Proof.
  intros Hne Hfield. unfold LLMAnalyzer._prepare_context.
  apply substr_join.
  destruct Hfield as [H | [H | H]]; subst field; rewrite Hne;
    repeat match goal with
           | |- context [LLMAnalyzer.nonempty ?f] =>
               destruct (LLMAnalyzer.nonempty f)
           end;
    rewrite ?in_app_iff; cbn [In]; tauto.
Qed.

Lemma context_holds_entries (data : Bundle) (item : Item) :
  In item (records data) ->
  exists i,
    substr (LLMAnalyzer.entry i item) (LLMAnalyzer._prepare_context data).
Proof.
  unfold records. rewrite !in_app_iff.
  intros [Hin|[Hin|Hin]];
    destruct (format_items_carries _ _ Hin) as (i & Hi); exists i;
    (eapply substr_trans; [exact Hi|]);
    apply prepare_context_sections; eauto using nonempty_in.
Qed.

Lemma highlights_shown (item : Item) (h : str) :
  In h (firstn 3 (LLMAnalyzer.highlights_of item)) ->
  LLMAnalyzer.has_highlights item = true.
Proof.
  unfold LLMAnalyzer.highlights_of, LLMAnalyzer.has_highlights.
  destruct (highlights item) as [[[|x xs]|]|]; simpl; tauto.
Qed.

Lemma entry_carries (i : nat) (item : Item) :
  carries item (firstn 3 (LLMAnalyzer.highlights_of item))
          (LLMAnalyzer.entry i item).
Proof.
  assert (Hbase : forall prefix s lines tail,
             In (prefix ++ s) lines ->
             substr s (if LLMAnalyzer.has_highlights item
                       then PyStr.text lines ++ tail
                       else PyStr.text lines)).
  { intros prefix s lines tail Hin.
    destruct (LLMAnalyzer.has_highlights item);
      [apply substr_app_l|]; eapply substr_line; eauto. }
  unfold carries, LLMAnalyzer.entry.
  repeat split.
  - intros s Hs. apply Hbase with (prefix := lit "- **Source**: ").
    rewrite Hs. do 2 right. left. reflexivity.
  - intros s Hs. apply Hbase with (prefix := lit "- **Topic**: ").
    rewrite Hs. do 3 right. left. reflexivity.
  - intros s Hs. apply Hbase with (prefix := lit "- **Title**: ").
    rewrite Hs. do 4 right. left. reflexivity.
  - intros s Hs. apply Hbase with (prefix := lit "- **URL**: ").
    rewrite Hs. do 5 right. left. reflexivity.
  - intros s Hs. apply Hbase with (prefix := lit "- **Date**: ").
    unfold LLMAnalyzer.date_field. rewrite Hs.
    do 6 right. left. reflexivity.
  - intros s Hs. apply Hbase with (prefix := lit "- **Content**: ").
    unfold LLMAnalyzer.content_field. unfold content_of in Hs.
    do 7 right. left. f_equal.
    destruct (text item), (abstract item), (description item);
      simpl; congruence.
  - intros h Hh. rewrite (highlights_shown item h Hh).
    apply substr_app_r, substr_app_r, substr_app_l.
    now apply substr_join.
Qed.

(** C8, as stated, fails: a stanza shows at most three highlights.  The
    fourth highlight of a record occurs neither in the context nor in the
    prompt submitted. *)
Lemma fourth_highlight_dropped :
  In Examples.post4 (records Examples.bundle4) /\
  In (lit "fourth") (LLMAnalyzer.highlights_of Examples.post4) /\
  ~ substr (lit "fourth") (LLMAnalyzer._prepare_context Examples.bundle4) /\
  ~ substr (lit "fourth")
      (LLMAnalyzer.user_prompt Examples.bundle4
         (LLMAnalyzer._prepare_context Examples.bundle4)).
Proof.
  split; [left; reflexivity|].
  split; [do 3 right; left; reflexivity|].
  split; apply not_substr; vm_compute; reflexivity.
Qed.

(** C8 (amended): for every bundle, every record of the three categories
    has a stanza in the context, which carries its source, topic, title,
    URL, date, content and its first three highlights; and
    [analyze_and_compile] issues one completion request, whose messages
    are the fixed system prompt and the user prompt holding that
    context. *)
Theorem context_serializes_records env self data w :
  (forall item,
     In item (records data) ->
     exists i,
       substr (LLMAnalyzer.entry i item) (LLMAnalyzer._prepare_context data)
       /\ carries item (firstn 3 (LLMAnalyzer.highlights_of item))
                  (LLMAnalyzer.entry i item))
  /\
  exists v w' prompt,
    LLMAnalyzer.analyze_and_compile env self data w = (inr v, w') /\
    net w'
    = net w ++ [Chat {| c_model := LLMAnalyzer.model self;
                        c_messages :=
                          [ (lit "system", LLMAnalyzer.system_prompt);
                            (lit "user", prompt) ];
                        c_temperature := (7 # 10)%Q;
                        c_max_tokens := 4000 |}] /\
    substr (LLMAnalyzer._prepare_context data) prompt.
Proof.
  split.
  - intros item Hin. destruct (context_holds_entries data item Hin) as (i & Hi).
    exists i. split; [exact Hi | apply entry_carries].
  - unfold LLMAnalyzer.analyze_and_compile.
    destruct (guarded_completion_total env
                (LLMAnalyzer.analysis_request self LLMAnalyzer.system_prompt
                   (LLMAnalyzer.user_prompt data
                      (LLMAnalyzer._prepare_context data)))
                (fun e => Some (lit "Error generating analysis: "
                                  ++ exn_msg e)) w)
      as (v & w' & Hrun & Hnet).
    exists v, w', (LLMAnalyzer.user_prompt data
                     (LLMAnalyzer._prepare_context data)).
    split; [exact Hrun|]. split; [exact Hnet|].
    apply substr_join. do 5 right. left. reflexivity.
Qed.

(** ** Effects compose *)

Lemma apply_nothing (w : World) : apply_delta w nothing = w.
Proof.
  destruct w. unfold apply_delta, nothing. simpl. now rewrite !app_nil_r.
Qed.

Lemma apply_then (w : World) (d1 d2 : Delta) :
  apply_delta (apply_delta w d1) d2 = apply_delta w (then_delta d1 d2).
Proof.
  unfold apply_delta, then_delta. simpl.
  now rewrite <- !app_assoc, Nat.add_assoc.
Qed.

Lemma runs_ret {A} (a : A) (w : World) : runs (ret a) w a nothing.
Proof. unfold runs, ret. now rewrite apply_nothing. Qed.

Lemma runs_bind {A B} (m : M A) (k : A -> M B) w a b d1 d2 :
  runs m w a d1 ->
  runs (k a) (apply_delta w d1) b d2 ->
  runs (bind m k) w b (then_delta d1 d2).
Proof.
  unfold runs, bind. intros -> ->. now rewrite apply_then.
Qed.

Lemma runs_print (line : str) (w : World) :
  runs (print line) w tt (printed [line]).
Proof.
  unfold runs, print, apply_delta, printed. simpl. now rewrite !app_nil_r.
Qed.

Lemma runs_mkdir (d : str) (w : World) : runs (mkdir d) w tt (made_dir d).
Proof.
  unfold runs, mkdir, apply_delta, made_dir. simpl. now rewrite !app_nil_r.
Qed.

Lemma runs_write_text (path content : str) (w : World) :
  runs (write_text path content) w tt (wrote path content).
Proof.
  unfold runs, write_text, apply_delta, wrote. simpl. now rewrite !app_nil_r.
Qed.

Lemma runs_datetime_now env (w : World) :
  runs (datetime_now env) w (clock env (clock_reads w)) (clock_read 1).
Proof.
  unfold runs, datetime_now, apply_delta, clock_read. simpl.
  now rewrite !app_nil_r.
Qed.

Lemma runs_if {A} (b : bool) (m1 m2 : M A) w a1 a2 d1 d2 :
  runs m1 w a1 d1 -> runs m2 w a2 d2 ->
  runs (if b then m1 else m2) w (if b then a1 else a2)
       (if b then d1 else d2).
Proof. now destruct b. Qed.

(** ** Whole runs *)

Lemma fetched_world_delta env self topics w :
  fetched_world env self topics w
  = apply_delta w (mkDelta (fetch_lines env self topics w)
                           (searches env self topics w) 6 [] []).
Proof.
  unfold fetched_world, apply_delta, fetch_lines, searches. simpl.
  now rewrite !app_nil_r.
Qed.

Lemma runs_fetch_all env self topics w :
  runs (ExaFetcher.fetch_all env self topics) w
       (fetched_bundle env self topics w)
       (mkDelta (fetch_lines env self topics w)
                (searches env self topics w) 6 [] []).
Proof.
  unfold runs. rewrite fetch_all_run. now rewrite fetched_world_delta.
Qed.

(** What [fetch_all] returns and does depends on the world it starts in
    only through the number of clock reads and of network calls. *)
Lemma fetch_all_same env self topics w1 w2 :
  clock_reads w1 = clock_reads w2 ->
  length (net w1) = length (net w2) ->
  fetched_bundle env self topics w1 = fetched_bundle env self topics w2 /\
  searches env self topics w1 = searches env self topics w2 /\
  fetch_lines env self topics w1 = fetch_lines env self topics w2.
Proof.
  intros Hc Hn.
  unfold fetched_bundle, searches, fetch_lines, x_req, github_req, arxiv_req,
    x_from, github_from, arxiv_from.
  rewrite Hc, Hn. repeat split.
Qed.

Lemma guarded_completion_run env c (on_error : Exn -> str) w :
  runs (try_except
          (response <- chat_completions_create env c ;;
           LLMAnalyzer.first_content response)
          (fun e => ret (Some (on_error e))))
       w (completion_outcome env (length (net w)) c on_error)
       (called [Chat c]).
Proof.
  unfold runs, try_except, bind, chat_completions_create, ret,
    completion_outcome, LLMAnalyzer.first_content, raise, apply_delta, called.
  simpl. rewrite !app_nil_r.
  destruct (chat_create env (length (net w)) c) as [e|r]; [reflexivity|].
  destruct (choices r); reflexivity.
Qed.

Lemma runs_analyze env self data w :
  runs (LLMAnalyzer.analyze_and_compile env self data) w
       (completion_outcome env (length (net w)) (digest_request self data)
          (fun e => lit "Error generating analysis: " ++ exn_msg e))
       (called [Chat (digest_request self data)]).
Proof.
  unfold LLMAnalyzer.analyze_and_compile, digest_request.
  apply (@guarded_completion_run env _
           (fun e => lit "Error generating analysis: " ++ exn_msg e)).
Qed.

Lemma runs_try_ValueError {A} (body : M A) handler w a d :
  runs body w a d -> runs (try_except_ValueError body handler) w a d.
Proof. unfold runs, try_except_ValueError. now intros ->. Qed.

Lemma runs_fetcher_init env w :
  truthy (getenv_EXA_API_KEY env) = true ->
  runs (ExaFetcher.__init__ env) w (main_fetcher env) nothing.
Proof.
  intros H. unfold runs, ExaFetcher.__init__, Config.EXA_API_KEY.
  rewrite H, apply_nothing. reflexivity.
Qed.

Lemma runs_analyzer_init env w :
  truthy (getenv_OPENROUTER_API_KEY env) = true ->
  runs (LLMAnalyzer.__init__ env None) w (main_analyzer env) nothing.
Proof.
  intros H. unfold runs, LLMAnalyzer.__init__, Config.OPENROUTER_API_KEY.
  rewrite H, apply_nothing. reflexivity.
Qed.

Lemma runs_generator_init (output_dir : option str) w :
  runs (ReportGenerator.__init__ output_dir) w
       (ReportGenerator.mkGenerator (get output_dir (lit "reports")))
       (made_dir (get output_dir (lit "reports"))).
Proof.
  unfold ReportGenerator.__init__.
  replace (made_dir (get output_dir (lit "reports")))
    with (then_delta (made_dir (get output_dir (lit "reports"))) nothing)
    by (unfold then_delta, made_dir, nothing; simpl; now rewrite ?app_nil_r).
  eapply runs_bind; [apply runs_mkdir | apply runs_ret].
Qed.

Lemma then_nothing_r (d : Delta) : then_delta d nothing = d.
Proof.
  destruct d. unfold then_delta, nothing. simpl. now rewrite !app_nil_r.
Qed.

Lemma runs_bind_ret {A B} (m : M A) (f : A -> B) w a d :
  runs m w a d -> runs (bind m (fun x => ret (f x))) w (f a) d.
Proof.
  intros H. rewrite <- (then_nothing_r d).
  eapply runs_bind; [exact H | apply runs_ret].
Qed.

Lemma runs_generate_header env (date_range : DateRange) w :
  runs (ReportGenerator.generate_header env date_range) w
       (PyStr.text
          [ lit "# " ++ ReportGenerator.robot
              ++ lit " AI/ML/Robotics Weekly Digest";
            [];
            lit "**Generated**: "
              ++ strftime env (clock env (clock_reads w))
                   (lit "%B %d, %Y at %I:%M %p") ++ lit "  ";
            lit "**Period**: " ++ get (dr_start date_range) (lit "N/A")
              ++ lit " to " ++ get (dr_end date_range) (lit "N/A");
            [];
            lit "---";
            [];
            [] ])
       (clock_read 1).
Proof.
  unfold ReportGenerator.generate_header.
  apply (@runs_bind_ret _ _ (datetime_now env)
           (fun now =>
              PyStr.text
                [ lit "# " ++ ReportGenerator.robot
                    ++ lit " AI/ML/Robotics Weekly Digest";
                  [];
                  lit "**Generated**: "
                    ++ strftime env now (lit "%B %d, %Y at %I:%M %p")
                    ++ lit "  ";
                  lit "**Period**: " ++ get (dr_start date_range) (lit "N/A")
                    ++ lit " to " ++ get (dr_end date_range) (lit "N/A");
                  [];
                  lit "---";
                  [];
                  [] ])).
  apply runs_datetime_now.
Qed.

Lemma runs_format_full_report env data analysis w :
  runs (ReportGenerator.format_full_report env data analysis) w
       (PyStr.text
          [ lit "# " ++ ReportGenerator.robot
              ++ lit " AI/ML/Robotics Weekly Digest";
            [];
            lit "**Generated**: "
              ++ strftime env (clock env (clock_reads w))
                   (lit "%B %d, %Y at %I:%M %p") ++ lit "  ";
            lit "**Period**: "
              ++ get (dr_start (get (date_range data) empty_dict)) (lit "N/A")
              ++ lit " to "
              ++ get (dr_end (get (date_range data) empty_dict)) (lit "N/A");
            [];
            lit "---";
            [];
            [] ]
          ++ ReportGenerator.generate_stats_section data
          ++ fmt analysis ++ ReportGenerator.methodology)
       (clock_read 1).
Proof.
  unfold ReportGenerator.format_full_report.
  apply (@runs_bind_ret _ _
           (ReportGenerator.generate_header env
              (get (date_range data) empty_dict))
           (fun header =>
              header ++ ReportGenerator.generate_stats_section data
                     ++ fmt analysis ++ ReportGenerator.methodology)).
  apply runs_generate_header.
Qed.

(** The file name [save_markdown] and [save_raw_data] choose. *)
Lemma runs_save_markdown env self content filename w :
  runs (ReportGenerator.save_markdown env self content filename) w
       (ReportGenerator.path_join (ReportGenerator.output_dir self)
          (get filename
             (lit "ai_digest_"
                ++ strftime env (clock env (clock_reads w))
                     (lit "%Y-%m-%d_%H-%M-%S")
                ++ lit ".md")))
       (then_delta
          (match filename with None => clock_read 1 | Some _ => nothing end)
          (wrote
             (ReportGenerator.path_join (ReportGenerator.output_dir self)
                (get filename
                   (lit "ai_digest_"
                      ++ strftime env (clock env (clock_reads w))
                           (lit "%Y-%m-%d_%H-%M-%S")
                      ++ lit ".md")))
             content)).
Proof.
  unfold ReportGenerator.save_markdown.
  destruct filename as [f|]; cbn [get]; eapply runs_bind.
  - apply runs_ret.
  - rewrite <- (then_nothing_r (wrote _ _)).
    eapply runs_bind; [apply runs_write_text | apply runs_ret].
  - apply (@runs_bind_ret _ _ (datetime_now env)
             (fun now =>
                lit "ai_digest_"
                  ++ strftime env now (lit "%Y-%m-%d_%H-%M-%S")
                  ++ lit ".md")).
    apply runs_datetime_now.
  - rewrite <- (then_nothing_r (wrote _ _)).
    eapply runs_bind; [apply runs_write_text | apply runs_ret].
Qed.

Lemma runs_save_raw_data env self data filename w :
  runs (ReportGenerator.save_raw_data env self data filename) w
       (ReportGenerator.path_join (ReportGenerator.output_dir self)
          (get filename
             (lit "raw_data_"
                ++ strftime env (clock env (clock_reads w))
                     (lit "%Y-%m-%d_%H-%M-%S")
                ++ lit ".json")))
       (then_delta
          (match filename with None => clock_read 1 | Some _ => nothing end)
          (wrote
             (ReportGenerator.path_join (ReportGenerator.output_dir self)
                (get filename
                   (lit "raw_data_"
                      ++ strftime env (clock env (clock_reads w))
                           (lit "%Y-%m-%d_%H-%M-%S")
                      ++ lit ".json")))
             (json_dumps env data))).
Proof.
  unfold ReportGenerator.save_raw_data.
  destruct filename as [f|]; cbn [get]; eapply runs_bind.
  - apply runs_ret.
  - rewrite <- (then_nothing_r (wrote _ _)).
    eapply runs_bind; [apply runs_write_text | apply runs_ret].
  - apply (@runs_bind_ret _ _ (datetime_now env)
             (fun now =>
                lit "raw_data_"
                  ++ strftime env now (lit "%Y-%m-%d_%H-%M-%S")
                  ++ lit ".json")).
    apply runs_datetime_now.
  - rewrite <- (then_nothing_r (wrote _ _)).
    eapply runs_bind; [apply runs_write_text | apply runs_ret].
Qed.

Lemma main_topics_fold (topics : option (list str)) :
  match topics with
  | Some (t :: ts) => t :: ts
  | _ => Config.TOPICS
  end = main_topics topics.
Proof. reflexivity. Qed.

(** The run lemmas again, for a world [w'] that has the clock reads and
    the network calls of a known one. *)
Lemma runs_fetch_all_at env self topics w w' :
  clock_reads w' = clock_reads w ->
  length (net w') = length (net w) ->
  runs (ExaFetcher.fetch_all env self topics) w'
       (fetched_bundle env self topics w)
       (mkDelta (fetch_lines env self topics w)
                (searches env self topics w) 6 [] []).
Proof.
  intros Hc Hn.
  destruct (@fetch_all_same env self topics w' w Hc Hn) as (<- & <- & <-).
  apply runs_fetch_all.
Qed.

Lemma runs_analyze_at env self data (k : nat) w' :
  length (net w') = k ->
  runs (LLMAnalyzer.analyze_and_compile env self data) w'
       (completion_outcome env k (digest_request self data)
          (fun e => lit "Error generating analysis: " ++ exn_msg e))
       (called [Chat (digest_request self data)]).
Proof. intros <-. apply runs_analyze. Qed.

Lemma runs_format_full_report_at env data analysis (c : nat) w' :
  clock_reads w' = c ->
  runs (ReportGenerator.format_full_report env data analysis) w'
       (PyStr.text
          [ lit "# " ++ ReportGenerator.robot
              ++ lit " AI/ML/Robotics Weekly Digest";
            [];
            lit "**Generated**: "
              ++ strftime env (clock env c) (lit "%B %d, %Y at %I:%M %p")
              ++ lit "  ";
            lit "**Period**: "
              ++ get (dr_start (get (date_range data) empty_dict)) (lit "N/A")
              ++ lit " to "
              ++ get (dr_end (get (date_range data) empty_dict)) (lit "N/A");
            [];
            lit "---";
            [];
            [] ]
          ++ ReportGenerator.generate_stats_section data
          ++ fmt analysis ++ ReportGenerator.methodology)
       (clock_read 1).
Proof. intros <-. apply runs_format_full_report. Qed.

Lemma runs_save_markdown_at env self content (c : nat) w' :
  clock_reads w' = c ->
  runs (ReportGenerator.save_markdown env self content None) w'
       (ReportGenerator.path_join (ReportGenerator.output_dir self)
          (lit "ai_digest_"
             ++ strftime env (clock env c) (lit "%Y-%m-%d_%H-%M-%S")
             ++ lit ".md"))
       (mkDelta [] [] 1 []
          [(ReportGenerator.path_join (ReportGenerator.output_dir self)
              (lit "ai_digest_"
                 ++ strftime env (clock env c) (lit "%Y-%m-%d_%H-%M-%S")
                 ++ lit ".md"),
            content)]).
Proof. intros <-. apply (runs_save_markdown env self content None). Qed.

Lemma runs_save_raw_data_at env self data (c : nat) w' :
  clock_reads w' = c ->
  runs (ReportGenerator.save_raw_data env self data None) w'
       (ReportGenerator.path_join (ReportGenerator.output_dir self)
          (lit "raw_data_"
             ++ strftime env (clock env c) (lit "%Y-%m-%d_%H-%M-%S")
             ++ lit ".json"))
       (mkDelta [] [] 1 []
          [(ReportGenerator.path_join (ReportGenerator.output_dir self)
              (lit "raw_data_"
                 ++ strftime env (clock env c) (lit "%Y-%m-%d_%H-%M-%S")
                 ++ lit ".json"),
            json_dumps env data)]).
Proof. intros <-. apply (runs_save_raw_data env self data None). Qed.

(** Reading the clock reads and the network calls off a world built by
    [apply_delta]. *)
Ltac observe :=
  cbn [apply_delta then_delta printed made_dir nothing called clock_read
       wrote d_out d_net d_reads d_dirs d_files
       stdout net clock_reads dirs files];
  rewrite ?app_nil_r, ?length_app;
  cbn [length Nat.add];
  try reflexivity; try lia.

Lemma main_runs env topics save_report save_raw display w :
  truthy (getenv_EXA_API_KEY env) = true ->
  truthy (getenv_OPENROUTER_API_KEY env) = true ->
  exists a d,
    runs (Main.main env topics save_report save_raw display) w a d /\
    a = Some (main_report env topics w) /\
    d_net d
    = searches env (main_fetcher env) (main_topics topics) w
        ++ [Chat (digest_request (main_analyzer env)
                    (main_data env topics w))] /\
    d_dirs d = [lit "reports"] /\
    d_files d = main_files env topics save_report save_raw w.
Proof.
  intros Hexa Hor. unfold Main.main. cbv zeta.
  rewrite !main_topics_fold.
  eexists. eexists. split.
  - eapply runs_bind; [apply runs_print|].
    eapply runs_bind.
    { apply runs_try_ValueError.
      eapply runs_bind; [apply runs_fetcher_init; exact Hexa|].
      eapply runs_bind; [apply runs_analyzer_init; exact Hor|].
      eapply runs_bind; [apply runs_generator_init | apply runs_ret]. }
    cbv beta iota.
    eapply runs_bind; [apply runs_print|].
    eapply runs_bind; [apply (@runs_fetch_all_at env _ _ w); observe|].
    eapply runs_bind; [apply runs_print|].
    eapply runs_bind; [apply runs_print|].
    eapply runs_bind.
    { apply (@runs_analyze_at env _ _
               (length (net w)
                + length (searches env (main_fetcher env)
                            (main_topics topics) w))).
      observe. }
    eapply runs_bind; [apply runs_print|].
    eapply runs_bind; [apply runs_print|].
    eapply runs_bind.
    { apply (@runs_format_full_report_at env _ _ (6 + clock_reads w)).
      observe. }
    eapply runs_bind; [apply runs_print|].
    eapply runs_bind.
    { apply runs_if.
      - eapply runs_bind; [|apply runs_print].
        apply (@runs_save_markdown_at env _ _ (7 + clock_reads w)). observe.
      - apply runs_ret. }
    eapply runs_bind.
    { apply runs_if.
      - eapply runs_bind; [|apply runs_print].
        apply (@runs_save_raw_data_at env _ _
                 ((if save_report then 8 else 7) + clock_reads w)).
        destruct save_report; observe.
      - apply runs_ret. }
    eapply runs_bind.
    { apply runs_if.
      - eapply runs_bind; apply runs_print.
      - apply runs_ret. }
    apply runs_ret.
  - split; [reflexivity|].
    unfold main_files.
    repeat split; destruct save_report, save_raw, display;
      cbn [then_delta printed made_dir nothing called clock_read
           d_out d_net d_reads d_dirs d_files app get
           ReportGenerator.output_dir];
      rewrite ?app_nil_r; reflexivity.
Qed.

Lemma runs_world {A} (m : M A) w a d :
  runs m w a d ->
  exists w',
    m w = (inr a, w') /\
    stdout w' = stdout w ++ d_out d /\
    net w' = net w ++ d_net d /\
    clock_reads w' = d_reads d + clock_reads w /\
    dirs w' = dirs w ++ d_dirs d /\
    files w' = files w ++ d_files d.
Proof.
  intros H. exists (apply_delta w d). split; [exact H|]. repeat split.
Qed.

Lemma main_config_error env topics save_report save_raw display w :
  truthy (getenv_EXA_API_KEY env) = false
  \/ truthy (getenv_OPENROUTER_API_KEY env) = false ->
  runs (Main.main env topics save_report save_raw display) w None
       (printed
          [ banner;
            lit "[red]Configuration Error: "
              ++ (if truthy (getenv_EXA_API_KEY env)
                  then lit "OPENROUTER_API_KEY not set. Please add it to your .env file."
                  else lit "EXA_API_KEY not set. Please add it to your .env file.")
              ++ lit "[/red]";
            lit "[yellow]Please ensure your .env file has EXA_API_KEY and OPENAI_API_KEY set.[/yellow]" ]).
Proof.
  intros H.
  unfold runs, Main.main, bind, try_except_ValueError, print,
    ExaFetcher.__init__, LLMAnalyzer.__init__,
    Config.EXA_API_KEY, Config.OPENROUTER_API_KEY, apply_delta, printed,
    banner, raise, ret.
  cbv beta iota.
  destruct (truthy (getenv_EXA_API_KEY env)) eqn:Ex;
    [destruct H as [H|H]; [discriminate|]; rewrite H|];
    cbn [negb exn_class exn_msg stdout net clock_reads dirs files
         d_out d_net d_reads d_dirs d_files Nat.add];
    rewrite ?app_nil_r, <- ?app_assoc; reflexivity.
Qed.

(** ** Fetcher: further properties *)

Lemma fetched_from_topic env req mk k ts it r :
  fetched_from env req mk k ts it r ->
  exists t, In t ts /\ it = mk t r.
Proof.
  intros (i & t & rs & Hn & _ & _ & ->).
  exists t. split; [eapply nth_error_In; eauto | reflexivity].
Qed.

Lemma gathered_shape env req mk k ts it :
  In it (gathered env req mk k ts) ->
  exists t r, In t ts /\ it = mk t r.
Proof.
  intros Hin. apply gathered_from in Hin. destruct Hin as (r & Hr).
  apply fetched_from_topic in Hr. destruct Hr as (t & Ht & ->).
  now exists t, r.
Qed.

(** X1: Every record of the bundle is tagged with its category and with one
    of the topics considered for that category; a repository also holds
    the name extracted from its URL. *)
Theorem fetched_records_labelled env self topics w :
  exists b w',
    ExaFetcher.fetch_all env self topics w = (inr b, w') /\
    (forall it, In it (get (x_posts b) []) ->
       source it = Some (lit "X/Twitter") /\
       exists t, In t (firstn 3 topics) /\ topic it = Some t) /\
    (forall it, In it (get (github_repos b) []) ->
       source it = Some (lit "GitHub") /\
       (exists t, In t (firstn 3 topics) /\ topic it = Some t) /\
       exists u, url it = Some u /\
                 name it = Some (ExaFetcher._extract_repo_name u)) /\
    (forall it, In it (get (arxiv_papers b) []) ->
       source it = Some (lit "arXiv") /\
       exists t, In t (firstn 4 topics) /\ topic it = Some t).
Proof.
  eexists. eexists. split; [apply fetch_all_run|].
  unfold fetched_bundle. cbn [x_posts github_repos arxiv_papers get].
  split; [|split]; intros it Hin; apply gathered_shape in Hin;
    destruct Hin as (t & r & Ht & ->).
  - split; [reflexivity|].
    exists t. split; [exact Ht | reflexivity].
  - split; [reflexivity|]. split.
    + exists t. split; [exact Ht | reflexivity].
    + exists (r_url r). split; reflexivity.
  - split; [reflexivity|].
    exists t. split; [exact Ht | reflexivity].
Qed.

Lemma or_else_nonempty (o : option str) (default : str) :
  or_else o default = [] -> default = [].
Proof.
  unfold or_else. destruct o as [[|c s]|]; simpl; intros H;
    [exact H | discriminate | exact H].
Qed.

Lemma extract_repo_name_nonempty (u : str) :
  ExaFetcher._extract_repo_name u = [] -> u = [].
Proof.
  unfold ExaFetcher._extract_repo_name.
  destruct (split 47%N (replace (lit "https://github.com/") [] u))
    as [|p0 [|p1 rest]]; intros H; try exact H.
  apply app_eq_nil in H. destruct H as [_ H]. discriminate H.
Qed.

(** X2: No post and no paper of the bundle has an empty title, and a
    repository has one only if its URL is empty. *)
Theorem fetched_titles_nonempty env self topics w :
  exists b w',
    ExaFetcher.fetch_all env self topics w = (inr b, w') /\
    (forall it, In it (get (x_posts b) []) ->
       exists s, title it = Some s /\ s <> []) /\
    (forall it, In it (get (arxiv_papers b) []) ->
       exists s, title it = Some s /\ s <> []) /\
    (forall it, In it (get (github_repos b) []) ->
       exists s, title it = Some s /\ (s = [] -> url it = Some [])).
Proof.
  eexists. eexists. split; [apply fetch_all_run|].
  unfold fetched_bundle. cbn [x_posts github_repos arxiv_papers get].
  split; [|split]; intros it Hin; apply gathered_shape in Hin;
    destruct Hin as (t & r & Ht & ->); eexists; (split; [reflexivity|]).
  - intros H. apply or_else_nonempty in H. discriminate H.
  - intros H. apply or_else_nonempty in H. discriminate H.
  - intros H. apply or_else_nonempty in H.
    apply extract_repo_name_nonempty in H.
    unfold ExaFetcher.github_repo. cbn [url]. now rewrite H.
Qed.

Lemma gathered_all_fail env req mk k ts :
  (forall n q, exists e, exa_search env n q = inl e) ->
  gathered env req mk k ts = [].
Proof.
  intros Hfail. revert k. induction ts as [|t ts IH]; intros k; simpl.
  - reflexivity.
  - destruct (Hfail k (req t)) as (e & ->). apply IH.
Qed.

Lemma complaints_failures env req label k ts :
  length (complaints env req label k ts) = failures env req k ts.
Proof.
  revert k. induction ts as [|t ts IH]; intros k; simpl; [reflexivity|].
  rewrite length_app, IH.
  destruct (exa_search env k (req t)); reflexivity.
Qed.

Lemma failures_all env req k ts :
  (forall n q, exists e, exa_search env n q = inl e) ->
  failures env req k ts = length ts.
Proof.
  intros Hfail. revert k. induction ts as [|t ts IH]; intros k; simpl.
  - reflexivity.
  - destruct (Hfail k (req t)) as (e & ->). now rewrite IH.
Qed.

(** X4: [fetch_all] prints its three progress lines and one line per search
    call that raised, nothing else. *)
Theorem fetch_all_prints_failures env self topics w :
  exists b w',
    ExaFetcher.fetch_all env self topics w = (inr b, w') /\
    length (stdout w')
    = length (stdout w) + 3
      + (failures env (x_req env self w) (x_from w topics) (firstn 3 topics)
         + failures env (github_req env self w) (github_from w topics)
             (firstn 3 topics)
         + failures env (arxiv_req env self w) (arxiv_from w topics)
             (firstn 4 topics)).
Proof.
  eexists. eexists. split; [apply fetch_all_run|].
  unfold fetched_world. cbn [stdout].
  rewrite !length_app, !complaints_failures. cbn [length]. lia.
Qed.

(** X5: When every search call raises, [fetch_all] still returns: the bundle
    has no record, its stats table shows zero everywhere, and one line
    per topic considered was printed. *)
Theorem fetch_all_survives_outage env self topics w :
  (forall n q, exists e, exa_search env n q = inl e) ->
  exists b w',
    ExaFetcher.fetch_all env self topics w = (inr b, w') /\
    records b = [] /\
    ReportGenerator.generate_stats_section b
    = stats_table (lit "0") (lit "0") (lit "0") (lit "0") /\
    length (stdout w')
    = length (stdout w) + 3
      + (length (firstn 3 topics) + length (firstn 3 topics)
         + length (firstn 4 topics)).
Proof.
  intros Hfail.
  eexists. eexists. split; [apply fetch_all_run|].
  unfold records, fetched_bundle, ReportGenerator.generate_stats_section.
  cbn [x_posts github_repos arxiv_papers get].
  rewrite !(@gathered_all_fail _ _ _ _ _ Hfail).
  split; [reflexivity|]. split; [reflexivity|].
  unfold fetched_world. cbn [stdout].
  rewrite !length_app, !complaints_failures, !(@failures_all _ _ _ _ Hfail).
  cbn [length]. lia.
Qed.

Lemma fetch_all_survives_outage_witness :
  exists b w',
    ExaFetcher.fetch_all MoreExamples.env_dead Examples.fetcher
      Config.TOPICS empty_world = (inr b, w') /\
    records b = [] /\
    ReportGenerator.generate_stats_section b
    = stats_table (lit "0") (lit "0") (lit "0") (lit "0") /\
    length (stdout w')
    = length (stdout empty_world) + 3
      + (length (firstn 3 Config.TOPICS) + length (firstn 3 Config.TOPICS)
         + length (firstn 4 Config.TOPICS)).
Proof.
  apply (@fetch_all_survives_outage MoreExamples.env_dead Examples.fetcher
           Config.TOPICS empty_world).
  intros n q. exists Examples.timeout. reflexivity.
Defined.

(** X6: Every search request of [fetch_all] asks for full text and
    highlights with the fetcher's result limit, and carries the date
    range computed at one of the first three clock reads. *)
Theorem search_requests_uniform env self topics w :
  exists b w',
    ExaFetcher.fetch_all env self topics w = (inr b, w') /\
    net w' = net w ++ searches env self topics w /\
    forall c, In c (searches env self topics w) ->
      exists q n,
        c = Search q /\ n < 3 /\
        q_num_results q = ExaFetcher.num_results self /\
        q_text q = true /\ q_highlights q = true /\
        q_start_published_date q = fst (dates env self (n + clock_reads w)) /\
        q_end_published_date q = snd (dates env self (n + clock_reads w)).
Proof.
  eexists. eexists. split; [apply fetch_all_run|].
  split; [reflexivity|].
  intros c Hc. unfold searches in Hc. rewrite !in_app_iff, !in_map_iff in Hc.
  destruct Hc as [(t & <- & _) | [(t & <- & _) | (t & <- & _)]];
    eexists; [exists 0 | exists 1 | exists 2];
    (split; [reflexivity|]); (split; [lia|]); repeat split.
Qed.

(** X7: On a fetcher built by [__init__], the bundle is dated by the three
    clock reads that follow the three loops: the fetch date, then a
    start seven days before the next read, then an end at the last
    read. *)
Theorem fetch_all_window env self topics w w0 w1 :
  ExaFetcher.__init__ env w0 = (inr self, w1) ->
  exists b w',
    ExaFetcher.fetch_all env self topics w = (inr b, w') /\
    fetch_date b = Some (isoformat env (clock env (3 + clock_reads w))) /\
    date_range b
    = Some {| dr_start :=
                Some (strftime env
                        (clock env (4 + clock_reads w) - 7 * 86400)%Z
                        (lit "%Y-%m-%d"));
              dr_end :=
                Some (strftime env (clock env (5 + clock_reads w))
                        (lit "%Y-%m-%d")) |} /\
    clock_reads w' = 6 + clock_reads w.
Proof.
  intros Hinit. apply init_settings in Hinit. destruct Hinit as [_ Hd].
  eexists. eexists. split; [apply fetch_all_run|].
  unfold fetched_bundle, dates. cbn [fetch_date date_range fst snd].
  rewrite Hd. repeat split.
Qed.

Lemma fetch_all_window_witness :
  exists b w',
    ExaFetcher.fetch_all Examples.env_ok Examples.fetcher Config.TOPICS
      empty_world = (inr b, w') /\
    fetch_date b
    = Some (isoformat Examples.env_ok
              (clock Examples.env_ok (3 + clock_reads empty_world))) /\
    date_range b
    = Some {| dr_start :=
                Some (strftime Examples.env_ok
                        (clock Examples.env_ok (4 + clock_reads empty_world)
                         - 7 * 86400)%Z
                        (lit "%Y-%m-%d"));
              dr_end :=
                Some (strftime Examples.env_ok
                        (clock Examples.env_ok (5 + clock_reads empty_world))
                        (lit "%Y-%m-%d")) |} /\
    clock_reads w' = 6 + clock_reads empty_world.
Proof.
  apply (@fetch_all_window Examples.env_ok Examples.fetcher Config.TOPICS
           empty_world empty_world empty_world).
  reflexivity.
Defined.

(** ** Repository names *)

Lemma substr_cons (c : char) (s t : str) : substr s t -> substr s (c :: t).
Proof. intros (a & b & ->). now exists (c :: a), b. Qed.

Lemma replace_from_skip (old new p s : str) :
  replace_from old new (length p) (p ++ s) = replace_from old new 0 s.
Proof. induction p as [|c p IH]; simpl; [reflexivity | exact IH]. Qed.

Lemma replace_prefix (old new s : str) :
  old <> [] -> replace old new (old ++ s) = new ++ replace old new s.
Proof.
  intros Hne. destruct old as [|a old']; [congruence|].
  unfold replace. cbn [app replace_from].
  assert (Hs : startswith (a :: old') (a :: old' ++ s) = true).
  { apply startswith_spec. now exists s. }
  rewrite Hs.
  replace (length (a :: old') - 1) with (length old') by (simpl; lia).
  now rewrite replace_from_skip.
Qed.

Lemma replace_absent (old new s : str) :
  ~ substr old s -> replace old new s = s.
Proof.
  unfold replace. induction s as [|c s IH]; intros Hno; [reflexivity|].
  cbn [replace_from].
  destruct (startswith old (c :: s)) eqn:E.
  - exfalso. apply Hno. apply startswith_spec in E. destruct E as (b & ->).
    now exists [], b.
  - f_equal. apply IH. intros Hs. apply Hno. now apply substr_cons.
Qed.

Lemma split_on_plain (sep : char) (cur s : str) :
  ~ In sep s -> split_on sep cur s = [rev cur ++ s].
Proof.
  revert cur. induction s as [|c s IH]; intros cur Hno; cbn [split_on].
  - now rewrite app_nil_r.
  - unfold char_eqb. destruct (N.eqb_spec c sep) as [->|Hc].
    + exfalso. apply Hno. now left.
    + rewrite IH by (intros H; apply Hno; now right).
      cbn [rev]. now rewrite <- app_assoc.
Qed.

Lemma split_on_sep (sep : char) (cur a rest : str) :
  ~ In sep a ->
  split_on sep cur (a ++ sep :: rest)
  = (rev cur ++ a) :: split_on sep [] rest.
Proof.
  revert cur. induction a as [|c a IH]; intros cur Hno; cbn [app split_on].
  - unfold char_eqb. rewrite N.eqb_refl. now rewrite app_nil_r.
  - unfold char_eqb. destruct (N.eqb_spec c sep) as [->|Hc].
    + exfalso. apply Hno. now left.
    + rewrite IH by (intros H; apply Hno; now right).
      cbn [rev]. now rewrite <- app_assoc.
Qed.

Lemma pattern_has_slash (s : str) :
  substr (lit "https://github.com/") s -> In 47%N s.
Proof.
  intros (a & b & ->). rewrite !in_app_iff. right. left.
  vm_compute. tauto.
Qed.

(** X8: The name of a repository URL is its owner and repository, whatever
    path follows them. *)
Theorem extract_repo_name_of_repository (owner repo tail : str) :
  ~ In 47%N owner ->
  ~ In 47%N repo ->
  tail = [] \/ (exists tail', tail = 47%N :: tail') ->
  ~ substr (lit "https://github.com/") (owner ++ lit "/" ++ repo ++ tail) ->
  ExaFetcher._extract_repo_name
    (lit "https://github.com/" ++ owner ++ lit "/" ++ repo ++ tail)
  = owner ++ lit "/" ++ repo.
Proof.
  intros Ho Hr Htail Hno. unfold ExaFetcher._extract_repo_name.
  rewrite replace_prefix by discriminate.
  rewrite (@replace_absent _ _ _ Hno). cbn [app].
  change (lit "/" ++ repo ++ tail) with (47%N :: repo ++ tail).
  unfold split. rewrite (@split_on_sep _ _ _ _ Ho). cbn [rev app].
  destruct Htail as [-> | (tail' & ->)].
  - rewrite app_nil_r, (@split_on_plain _ _ _ Hr). reflexivity.
  - rewrite (@split_on_sep _ _ _ _ Hr). reflexivity.
Qed.

Lemma extract_repo_name_of_repository_witness :
  ExaFetcher._extract_repo_name
    (lit "https://github.com/" ++ lit "rocq-prover" ++ lit "/" ++ lit "rocq"
       ++ lit "/tree/master")
  = lit "rocq-prover" ++ lit "/" ++ lit "rocq".
Proof.
  apply (@extract_repo_name_of_repository (lit "rocq-prover") (lit "rocq")
           (lit "/tree/master")).
  - vm_compute. intuition discriminate.
  - vm_compute. intuition discriminate.
  - right. eexists. reflexivity.
  - apply not_substr. vm_compute. reflexivity.
Defined.

(** X9: A URL with fewer than two path parts is returned as it is: one with
    no slash at all, and a GitHub URL that stops at the owner. *)
Theorem extract_repo_name_falls_back (u : str) :
  ~ In 47%N u ->
  ExaFetcher._extract_repo_name u = u /\
  ExaFetcher._extract_repo_name (lit "https://github.com/" ++ u)
  = lit "https://github.com/" ++ u.
Proof.
  intros Hno.
  assert (Habs : ~ substr (lit "https://github.com/") u).
  { intros Hs. apply Hno. now apply pattern_has_slash. }
  unfold ExaFetcher._extract_repo_name. split.
  - rewrite (@replace_absent _ _ _ Habs). unfold split.
    rewrite (@split_on_plain _ _ _ Hno). reflexivity.
  - rewrite replace_prefix by discriminate.
    rewrite (@replace_absent _ _ _ Habs). cbn [app]. unfold split.
    rewrite (@split_on_plain _ _ _ Hno). reflexivity.
Qed.

Lemma extract_repo_name_falls_back_witness :
  ExaFetcher._extract_repo_name (lit "octocat") = lit "octocat" /\
  ExaFetcher._extract_repo_name (lit "https://github.com/" ++ lit "octocat")
  = lit "https://github.com/" ++ lit "octocat".
Proof.
  apply (@extract_repo_name_falls_back (lit "octocat")).
  vm_compute. intuition discriminate.
Defined.

(** ** Analyzer: further properties *)

(** X11: When the completion call returns, [analyze_and_compile] hands back
    the content of the first choice as it is, after one request. *)
Theorem analysis_is_first_choice env self data w response content others :
  chat_create env (length (net w)) (digest_request self data) = inr response ->
  choices response = content :: others ->
  exists w',
    LLMAnalyzer.analyze_and_compile env self data w = (inr content, w') /\
    net w' = net w ++ [Chat (digest_request self data)].
Proof.
  intros Hc Hr.
  destruct (runs_world (runs_analyze env self data w))
    as (w' & Hrun & _ & Hnet & _).
  exists w'. split; [|exact Hnet].
  rewrite Hrun. unfold completion_outcome. now rewrite Hc, Hr.
Qed.

Lemma analysis_is_first_choice_witness :
  exists w',
    LLMAnalyzer.analyze_and_compile Examples.env_ok Examples.analyzer
      Examples.bundle4 empty_world = (inr (Some (lit "digest")), w') /\
    net w'
    = net empty_world
        ++ [Chat (digest_request Examples.analyzer Examples.bundle4)].
Proof.
  apply (@analysis_is_first_choice Examples.env_ok Examples.analyzer
           Examples.bundle4 empty_world
           (mkResponse [Some (lit "digest")]) (Some (lit "digest")) []);
    reflexivity.
Defined.

(** X12: A response with no choice is a failure like any other: the analysis
    is the error string of the index error. *)
Theorem analysis_of_no_choice env self data w response :
  chat_create env (length (net w)) (digest_request self data) = inr response ->
  choices response = [] ->
  exists w',
    LLMAnalyzer.analyze_and_compile env self data w
    = (inr (Some (lit "Error generating analysis: list index out of range")),
       w').
Proof.
  intros Hc Hr.
  destruct (runs_world (runs_analyze env self data w)) as (w' & Hrun & _).
  exists w'. rewrite Hrun. unfold completion_outcome. now rewrite Hc, Hr.
Qed.

Lemma analysis_of_no_choice_witness :
  exists w',
    LLMAnalyzer.analyze_and_compile MoreExamples.env_mute Examples.analyzer
      Examples.bundle4 empty_world
    = (inr (Some (lit "Error generating analysis: list index out of range")),
       w').
Proof.
  apply (@analysis_of_no_choice MoreExamples.env_mute Examples.analyzer
           Examples.bundle4 empty_world (mkResponse []));
    reflexivity.
Defined.

Lemma str_eqb_eq (a b : str) : LLMAnalyzer.str_eqb a b = true <-> a = b.
Proof.
  unfold LLMAnalyzer.str_eqb.
  destruct (list_eq_dec N.eq_dec a b); split; congruence.
Qed.


Lemma str_eqb_neq (a b : str) : a <> b -> LLMAnalyzer.str_eqb a b = false.
Proof.
  intros H. destruct (LLMAnalyzer.str_eqb a b) eqn:E; [|reflexivity].
  apply str_eqb_eq in E. contradiction.
Qed.

(** X13: For a non-empty list [summarize_single_source] issues one request,
    of one user message and 1500 tokens, whose prompt holds the
    formatted items and the display name of the source type: the name
    from the table for the three known types, the type itself for any
    other. *)
Theorem summary_request_shape env self source_type items w :
  items <> [] ->
  exists v w' prompt,
    LLMAnalyzer.summarize_single_source env self source_type items w
    = (inr v, w') /\
    net w'
    = net w ++ [Chat {| c_model := LLMAnalyzer.model self;
                        c_messages := [ (lit "user", prompt) ];
                        c_temperature := (7 # 10)%Q;
                        c_max_tokens := 1500 |}] /\
    substr (LLMAnalyzer._format_items items) prompt /\
    substr (LLMAnalyzer.dict_get LLMAnalyzer.source_names
              source_type source_type) prompt /\
    (source_type <> lit "x_posts" ->
     source_type <> lit "github_repos" ->
     source_type <> lit "arxiv_papers" ->
     LLMAnalyzer.dict_get LLMAnalyzer.source_names source_type source_type
     = source_type).
Proof.
  intros Hne. destruct items as [|item rest]; [congruence|].
  unfold LLMAnalyzer.summarize_single_source.
  destruct (runs_world
              (@guarded_completion_run env
                 (LLMAnalyzer.summary_request self
                    (LLMAnalyzer.summary_prompt source_type
                       (LLMAnalyzer._format_items (item :: rest))))
                 (fun e => lit "Error summarizing " ++ source_type
                             ++ lit ": " ++ exn_msg e) w))
    as (w' & Hrun & _ & Hnet & _).
  eexists. exists w'. eexists. split; [exact Hrun|].
  split; [exact Hnet|].
  split; [|split].
  - apply substr_join. do 3 right. left. reflexivity.
  - eapply substr_trans; [|apply substr_join; left; reflexivity].
    apply substr_app_r, substr_app_l, substr_refl.
  - intros H1 H2 H3. unfold LLMAnalyzer.source_names.
    cbn [LLMAnalyzer.dict_get].
    rewrite !str_eqb_neq by congruence. reflexivity.
Qed.

Lemma summary_request_shape_witness :
  exists v w' prompt,
    LLMAnalyzer.summarize_single_source Examples.env_ok Examples.analyzer
      (lit "x_posts") [Examples.post4] empty_world = (inr v, w') /\
    net w'
    = net empty_world
        ++ [Chat {| c_model := LLMAnalyzer.model Examples.analyzer;
                    c_messages := [ (lit "user", prompt) ];
                    c_temperature := (7 # 10)%Q;
                    c_max_tokens := 1500 |}] /\
    substr (LLMAnalyzer._format_items [Examples.post4]) prompt /\
    substr (LLMAnalyzer.dict_get LLMAnalyzer.source_names
              (lit "x_posts") (lit "x_posts")) prompt /\
    (lit "x_posts" <> lit "x_posts" ->
     lit "x_posts" <> lit "github_repos" ->
     lit "x_posts" <> lit "arxiv_papers" ->
     LLMAnalyzer.dict_get LLMAnalyzer.source_names
       (lit "x_posts") (lit "x_posts")
     = lit "x_posts").
Proof.
  apply (@summary_request_shape Examples.env_ok Examples.analyzer
           (lit "x_posts") [Examples.post4] empty_world).
  discriminate.
Defined.

Lemma entries_nth (items : list Item) (i0 k : nat) (item : Item) :
  nth_error items k = Some item ->
  In (LLMAnalyzer.entry (i0 + k) item) (LLMAnalyzer.entries i0 items).
Proof.
  revert i0 k. induction items as [|x xs IH]; intros i0 k Hn.
  - destruct k; discriminate.
  - destruct k as [|k]; simpl in Hn.
    + injection Hn as ->. rewrite Nat.add_0_r. now left.
    + right. rewrite <- Nat.add_succ_comm. now apply IH.
Qed.

Lemma text_two_lines (pre post : list str) (x y : str) :
  substr (x ++ nl ++ y) (PyStr.text (pre ++ x :: y :: post)).
Proof.
  unfold PyStr.text. induction pre as [|p pre IH].
  - cbn [app]. rewrite join_cons by discriminate.
    destruct post as [|z post].
    + apply substr_refl.
    + rewrite (@join_cons nl y (z :: post)) by discriminate.
      exists [], (nl ++ join nl (z :: post)).
      cbn [app]. now rewrite <- !app_assoc.
  - cbn [app]. rewrite join_cons by (destruct pre; discriminate).
    now apply substr_app_r, substr_app_r.
Qed.

(** X14: [_format_items] numbers the stanzas from 1, in the order of the
    list: the stanza of the item at position [k] is headed "Item k+1",
    followed by the line of its source. *)
Theorem format_items_numbers_from_one (items : list Item) (k : nat)
        (item : Item) :
  nth_error items k = Some item ->
  substr (LLMAnalyzer.entry (S k) item) (LLMAnalyzer._format_items items) /\
  substr (lit "### Item " ++ str_of_nat (S k) ++ nl
            ++ lit "- **Source**: " ++ get (source item) (lit "Unknown"))
         (LLMAnalyzer.entry (S k) item).
Proof.
  intros Hn. split.
  - apply substr_join. now apply (@entries_nth items 1 k item).
  - unfold LLMAnalyzer.entry.
    assert (H : forall rest,
               substr (lit "### Item " ++ str_of_nat (S k) ++ nl
                         ++ lit "- **Source**: "
                         ++ get (source item) (lit "Unknown"))
                      (PyStr.text
                         ([[]] ++ (lit "### Item " ++ str_of_nat (S k))
                               :: (lit "- **Source**: "
                                     ++ get (source item) (lit "Unknown"))
                               :: rest))).
    { intros rest. rewrite (app_assoc (lit "### Item ")).
      apply text_two_lines. }
    destruct (LLMAnalyzer.has_highlights item);
      [apply substr_app_l|]; apply H.
Qed.

Lemma format_items_numbers_from_one_witness :
  substr (LLMAnalyzer.entry 2 Examples.post4)
         (LLMAnalyzer._format_items [Examples.post4; Examples.post4]) /\
  substr (lit "### Item " ++ str_of_nat 2 ++ nl
            ++ lit "- **Source**: "
            ++ get (source Examples.post4) (lit "Unknown"))
         (LLMAnalyzer.entry 2 Examples.post4).
Proof.
  apply (@format_items_numbers_from_one [Examples.post4; Examples.post4] 1
           Examples.post4).
  reflexivity.
Defined.

Lemma nonempty_false (field : option (list Item)) :
  get field [] = [] -> LLMAnalyzer.nonempty field = false.
Proof. destruct field as [[|x xs]|]; simpl; [reflexivity | discriminate | reflexivity]. Qed.

(** X15: A bundle without records has the empty context: no section heading
    is written for an empty or missing category. *)
Theorem context_of_no_record (data : Bundle) :
  records data = [] -> LLMAnalyzer._prepare_context data = [].
Proof.
  unfold records. intros H.
  apply app_eq_nil in H. destruct H as [Hx H].
  apply app_eq_nil in H. destruct H as [Hg Ha].
  unfold LLMAnalyzer._prepare_context.
  now rewrite (nonempty_false _ Hx), (nonempty_false _ Hg),
    (nonempty_false _ Ha).
Qed.

Lemma context_of_no_record_witness :
  LLMAnalyzer._prepare_context empty_bundle = [].
Proof.
  apply (@context_of_no_record empty_bundle). reflexivity.
Defined.

(** ** Constructors *)

(** X10: A constructor succeeds exactly when its key is a non-empty string,
    and then touches nothing; a key set to the empty string is refused
    like a missing one. *)
Theorem constructors_need_nonempty_key env w model :
  ((exists f, ExaFetcher.__init__ env w = (inr f, w))
   <-> exists c s, getenv_EXA_API_KEY env = Some (c :: s))
  /\
  ((exists a, LLMAnalyzer.__init__ env model w = (inr a, w))
   <-> exists c s, getenv_OPENROUTER_API_KEY env = Some (c :: s))
  /\
  (getenv_EXA_API_KEY env = Some [] ->
   exists e, ExaFetcher.__init__ env w = (inl e, w)
             /\ exn_class e = ValueError)
  /\
  (getenv_OPENROUTER_API_KEY env = Some [] ->
   exists e, LLMAnalyzer.__init__ env model w = (inl e, w)
             /\ exn_class e = ValueError).
Proof.
  unfold ExaFetcher.__init__, LLMAnalyzer.__init__, Config.EXA_API_KEY,
    Config.OPENROUTER_API_KEY, raise, ret.
  repeat split.
  - intros (f & H).
    destruct (getenv_EXA_API_KEY env) as [[|c s]|]; simpl in H;
      try discriminate. now exists c, s.
  - intros (c & s & ->). simpl. eexists. reflexivity.
  - intros (a & H).
    destruct (getenv_OPENROUTER_API_KEY env) as [[|c s]|]; simpl in H;
      try discriminate. now exists c, s.
  - intros (c & s & ->). simpl. eexists. reflexivity.
  - intros ->. simpl. eexists. split; reflexivity.
  - intros ->. simpl. eexists. split; reflexivity.
Qed.

(** ** main: further properties *)

Lemma truthy_cases (o : option str) : truthy o = true \/ truthy o = false.
Proof. destruct (truthy o); auto. Qed.

(** X21: Whatever keys are set, whatever the search and completion clients
    answer or raise, and whatever the flags, [main] returns and raises
    nothing (creating the directory and writing the files are taken to
    succeed). *)
Theorem main_never_raises env topics save_report save_raw display w :
  exists v w',
    Main.main env topics save_report save_raw display w = (inr v, w').
Proof.
  destruct (truthy_cases (getenv_EXA_API_KEY env)) as [Hexa|Hexa];
    [destruct (truthy_cases (getenv_OPENROUTER_API_KEY env)) as [Hor|Hor]|].
  - destruct (@main_runs env topics save_report save_raw display w Hexa Hor)
      as (a & d & Hrun & _).
    exists a, (apply_delta w d). exact Hrun.
  - eexists. eexists.
    apply (@main_config_error env topics save_report save_raw display w).
    now right.
  - eexists. eexists.
    apply (@main_config_error env topics save_report save_raw display w).
    now left.
Qed.

(** X17: With both keys set, [main] returns the report of the bundle fetched
    for its topics (the default ones when none or an empty list is
    given) and of the analysis of that bundle; on the network it issued
    the searches of [fetch_all], then one completion request, and it
    created the output directory. *)
Theorem main_pipeline env topics save_report save_raw display w :
  truthy (getenv_EXA_API_KEY env) = true ->
  truthy (getenv_OPENROUTER_API_KEY env) = true ->
  exists w',
    Main.main env topics save_report save_raw display w
    = (inr (Some (main_report env topics w)), w') /\
    net w'
    = net w
        ++ searches env (main_fetcher env) (main_topics topics) w
        ++ [Chat (digest_request (main_analyzer env)
                    (main_data env topics w))] /\
    dirs w' = dirs w ++ [lit "reports"].
Proof.
  intros Hexa Hor.
  destruct (@main_runs env topics save_report save_raw display w Hexa Hor)
    as (a & d & Hrun & -> & Hnet & Hdirs & _).
  exists (apply_delta w d). split; [exact Hrun|].
  unfold apply_delta. cbn [net dirs]. now rewrite Hnet, Hdirs.
Qed.

Lemma main_pipeline_witness :
  exists w',
    Main.main Examples.env_ok None true false true empty_world
    = (inr (Some (main_report Examples.env_ok None empty_world)), w') /\
    net w'
    = net empty_world
        ++ searches Examples.env_ok (main_fetcher Examples.env_ok)
             (main_topics None) empty_world
        ++ [Chat (digest_request (main_analyzer Examples.env_ok)
                    (main_data Examples.env_ok None empty_world))] /\
    dirs w' = dirs empty_world ++ [lit "reports"].
Proof.
  apply (@main_pipeline Examples.env_ok None true false true empty_world);
    reflexivity.
Defined.

(** X18: With both keys set, the files [main] writes are the report it
    returns, when asked to save it, then the raw bundle, when asked for
    it, each under the output directory with a time-stamped name; with
    both flags off it writes nothing. *)
Theorem main_writes_what_is_asked env topics save_report save_raw display w :
  truthy (getenv_EXA_API_KEY env) = true ->
  truthy (getenv_OPENROUTER_API_KEY env) = true ->
  exists report w',
    Main.main env topics save_report save_raw display w
    = (inr (Some report), w') /\
    files w' = files w ++ main_files env topics save_report save_raw w /\
    (save_report = true ->
     exists path, In (path, report) (files w')) /\
    (save_report = false -> save_raw = false -> files w' = files w).
Proof.
  intros Hexa Hor.
  destruct (@main_runs env topics save_report save_raw display w Hexa Hor)
    as (a & d & Hrun & -> & _ & _ & Hfiles).
  exists (main_report env topics w), (apply_delta w d).
  split; [exact Hrun|].
  unfold apply_delta. cbn [files]. rewrite Hfiles.
  split; [reflexivity|]. split.
  - intros ->. unfold main_files. eexists.
    rewrite !in_app_iff. right. left. left. reflexivity.
  - intros -> ->. unfold main_files. cbn [app]. now rewrite app_nil_r.
Qed.

Lemma main_writes_what_is_asked_witness :
  exists report w',
    Main.main Examples.env_ok None true true false empty_world
    = (inr (Some report), w') /\
    files w'
    = files empty_world ++ main_files Examples.env_ok None true true empty_world /\
    (true = true -> exists path, In (path, report) (files w')) /\
    (true = false -> true = false -> files w' = files empty_world).
Proof.
  apply (@main_writes_what_is_asked Examples.env_ok None true true false
           empty_world); reflexivity.
Defined.

(** X19: When the completion call of the run raises, [main] goes on: the
    report it returns, and saves when asked to, holds the error string
    in place of the analysis. *)
Theorem main_reports_analysis_failure env topics save_raw display w e :
  truthy (getenv_EXA_API_KEY env) = true ->
  truthy (getenv_OPENROUTER_API_KEY env) = true ->
  chat_create env
    (length (net w)
     + length (searches env (main_fetcher env) (main_topics topics) w))
    (digest_request (main_analyzer env) (main_data env topics w))
  = inl e ->
  exists report w',
    Main.main env topics true save_raw display w = (inr (Some report), w') /\
    substr (lit "Error generating analysis: " ++ exn_msg e) report /\
    exists path, In (path, report) (files w').
Proof.
  intros Hexa Hor Hfail.
  destruct (@main_runs env topics true save_raw display w Hexa Hor)
    as (a & d & Hrun & -> & _ & _ & Hfiles).
  exists (main_report env topics w), (apply_delta w d).
  split; [exact Hrun|]. split.
  - unfold main_report, main_analysis, completion_outcome.
    rewrite Hfail. cbn [fmt].
    apply substr_app_r, substr_app_r, substr_app_l, substr_refl.
  - unfold apply_delta. cbn [files]. rewrite Hfiles. unfold main_files.
    eexists. rewrite !in_app_iff. right. left. left. reflexivity.
Qed.

Lemma main_reports_analysis_failure_witness :
  exists report w',
    Main.main Examples.env_down None true false false empty_world
    = (inr (Some report), w') /\
    substr (lit "Error generating analysis: " ++ exn_msg Examples.timeout)
           report /\
    exists path, In (path, report) (files w').
Proof.
  apply (@main_reports_analysis_failure Examples.env_down None false false
           empty_world Examples.timeout); reflexivity.
Defined.

(** X20: With a key missing or empty, [main] prints its banner, the error of
    the first key found wanting (the search key is looked at first) and
    the hint, returns nothing, and has read no clock, called nothing and
    created no directory or file. *)
Theorem main_reports_missing_key env topics save_report save_raw display w :
  truthy (getenv_EXA_API_KEY env) = false
  \/ truthy (getenv_OPENROUTER_API_KEY env) = false ->
  exists w',
    Main.main env topics save_report save_raw display w = (inr None, w') /\
    stdout w'
    = stdout w
        ++ [ banner;
             lit "[red]Configuration Error: "
               ++ (if truthy (getenv_EXA_API_KEY env)
                   then lit "OPENROUTER_API_KEY not set. Please add it to your .env file."
                   else lit "EXA_API_KEY not set. Please add it to your .env file.")
               ++ lit "[/red]";
             lit "[yellow]Please ensure your .env file has EXA_API_KEY and OPENAI_API_KEY set.[/yellow]" ] /\
    net w' = net w /\ clock_reads w' = clock_reads w /\
    dirs w' = dirs w /\ files w' = files w.
Proof.
  intros H.
  destruct (runs_world
              (@main_config_error env topics save_report save_raw display
                 w H))
    as (w' & Hrun & Hout & Hnet & Hc & Hd & Hf).
  exists w'. split; [exact Hrun|]. split; [exact Hout|].
  cbn [printed d_net d_reads d_dirs d_files Nat.add] in Hnet, Hc, Hd, Hf.
  rewrite app_nil_r in Hnet, Hd, Hf. auto.
Qed.

Lemma main_reports_missing_key_witness :
  exists w',
    Main.main MoreExamples.env_blank None true true true empty_world
    = (inr None, w') /\
    stdout w'
    = stdout empty_world
        ++ [ banner;
             lit "[red]Configuration Error: "
               ++ (if truthy (getenv_EXA_API_KEY MoreExamples.env_blank)
                   then lit "OPENROUTER_API_KEY not set. Please add it to your .env file."
                   else lit "EXA_API_KEY not set. Please add it to your .env file.")
               ++ lit "[/red]";
             lit "[yellow]Please ensure your .env file has EXA_API_KEY and OPENAI_API_KEY set.[/yellow]" ] /\
    net w' = net empty_world /\ clock_reads w' = clock_reads empty_world /\
    dirs w' = dirs empty_world /\ files w' = files empty_world.
Proof.
  apply (@main_reports_missing_key MoreExamples.env_blank None true true true
           empty_world).
  left. reflexivity.
Defined.

(** ** Saving *)



(** ** quick_fetch *)

(** X22: [quick_fetch] does not catch the configuration error: with the
    search key missing or empty it raises ValueError, and nothing has
    been printed or called. *)
Theorem quick_fetch_raises_without_key env source topics w :
  truthy (getenv_EXA_API_KEY env) = false ->
  exists e,
    QuickFetch.quick_fetch env source topics w = (inl e, w) /\
    exn_class e = ValueError.
Proof.
  intros H. unfold QuickFetch.quick_fetch, bind, ExaFetcher.__init__,
    Config.EXA_API_KEY, raise.
  cbv zeta. rewrite H. cbn [negb]. eexists. split; reflexivity.
Qed.

Lemma quick_fetch_raises_without_key_witness :
  exists e,
    QuickFetch.quick_fetch Examples.env_nokeys (Some (lit "x")) None
      empty_world = (inl e, empty_world) /\
    exn_class e = ValueError.
Proof.
  apply (@quick_fetch_raises_without_key Examples.env_nokeys
           (Some (lit "x")) None empty_world).
  reflexivity.
Defined.

(** X24: With the key set, any source other than "x", "github" and "arxiv",
    a missing one included, gives the whole bundle of [fetch_all]; for
    missing or empty topics the first three configured topics are used,
    so that papers too are searched for three topics only. *)
Theorem quick_fetch_falls_back_to_all env source topics w :
  truthy (getenv_EXA_API_KEY env) = true ->
  get source (lit "all") <> lit "x" ->
  get source (lit "all") <> lit "github" ->
  get source (lit "all") <> lit "arxiv" ->
  exists w',
    QuickFetch.quick_fetch env source topics w
    = (inr (QuickFetch.All
              (fetched_bundle env (main_fetcher env)
                 (match topics with
                  | Some (t :: ts) => t :: ts
                  | _ => firstn 3 Config.TOPICS
                  end) w)),
       w') /\
    (topics = None \/ topics = Some [] ->
     length (net w') = length (net w) + 9).
Proof.
  intros Hkey Hx Hg Ha. unfold QuickFetch.quick_fetch. cbv zeta.
  rewrite !str_eqb_neq by assumption.
  assert (Hrun : forall ts,
             runs (fetcher <- ExaFetcher.__init__ env ;;
                   data <- ExaFetcher.fetch_all env fetcher ts ;;
                   ret (QuickFetch.All data)) w
                  (QuickFetch.All (fetched_bundle env (main_fetcher env) ts w))
                  (then_delta nothing
                     (mkDelta (fetch_lines env (main_fetcher env) ts w)
                        (searches env (main_fetcher env) ts w) 6 [] []))).
  { intros ts. eapply runs_bind; [now apply runs_fetcher_init|].
    apply (@runs_bind_ret _ _
             (ExaFetcher.fetch_all env (main_fetcher env) ts)
             QuickFetch.All).
    apply (@runs_fetch_all_at env (main_fetcher env) ts w); observe. }
  eexists. split; [apply Hrun|].
  intros [-> | ->]; cbn [apply_delta then_delta nothing d_net net app];
    rewrite length_app; reflexivity.
Qed.

Lemma quick_fetch_falls_back_to_all_witness :
  exists w',
    QuickFetch.quick_fetch Examples.env_ok None None empty_world
    = (inr (QuickFetch.All
              (fetched_bundle Examples.env_ok (main_fetcher Examples.env_ok)
                 (firstn 3 Config.TOPICS) empty_world)),
       w') /\
    (@None (list str) = None \/ @None (list str) = Some [] ->
     length (net w') = length (net empty_world) + 9).
Proof.
  apply (@quick_fetch_falls_back_to_all Examples.env_ok None None
           empty_world); [reflexivity | discriminate ..].
Defined.

(** X23: For the sources "x", "github" and "arxiv", [quick_fetch] returns the
    list of that category alone, as its fetch returns it on a fetcher
    built from the environment, and leaves the world that fetch
    leaves. *)
Theorem quick_fetch_one_category env source topics w :
  truthy (getenv_EXA_API_KEY env) = true ->
  let ts := match topics with
            | Some (t :: ts) => t :: ts
            | _ => firstn 3 Config.TOPICS
            end in
  (source = Some (lit "x") ->
   exists items w',
     ExaFetcher.fetch_x_posts env (main_fetcher env) ts w = (inr items, w') /\
     QuickFetch.quick_fetch env source topics w
     = (inr (QuickFetch.Items items), w'))
  /\
  (source = Some (lit "github") ->
   exists items w',
     ExaFetcher.fetch_github_trending env (main_fetcher env) ts w
     = (inr items, w') /\
     QuickFetch.quick_fetch env source topics w
     = (inr (QuickFetch.Items items), w'))
  /\
  (source = Some (lit "arxiv") ->
   exists items w',
     ExaFetcher.fetch_arxiv_papers env (main_fetcher env) ts w
     = (inr items, w') /\
     QuickFetch.quick_fetch env source topics w
     = (inr (QuickFetch.Items items), w')).
Proof.
  intros Hkey ts.
  assert (Hinit : ExaFetcher.__init__ env w = (inr (main_fetcher env), w)).
  { unfold ExaFetcher.__init__, Config.EXA_API_KEY. now rewrite Hkey. }
  split; [|split]; intros ->; unfold QuickFetch.quick_fetch; cbv zeta;
    fold ts; unfold bind at 1; rewrite Hinit; cbn [get].
  - change (LLMAnalyzer.str_eqb (lit "x") (lit "x")) with true. cbv iota.
    unfold bind, ret. rewrite fetch_x_posts_run.
    eexists. eexists. split; reflexivity.
  - change (LLMAnalyzer.str_eqb (lit "github") (lit "x")) with false.
    change (LLMAnalyzer.str_eqb (lit "github") (lit "github")) with true.
    cbv iota. unfold bind, ret. rewrite fetch_github_trending_run.
    eexists. eexists. split; reflexivity.
  - change (LLMAnalyzer.str_eqb (lit "arxiv") (lit "x")) with false.
    change (LLMAnalyzer.str_eqb (lit "arxiv") (lit "github")) with false.
    change (LLMAnalyzer.str_eqb (lit "arxiv") (lit "arxiv")) with true.
    cbv iota. unfold bind, ret. rewrite fetch_arxiv_papers_run.
    eexists. eexists. split; reflexivity.
Qed.

Lemma quick_fetch_one_category_witness :
  exists items w',
    ExaFetcher.fetch_arxiv_papers Examples.env_ok
      (main_fetcher Examples.env_ok) (firstn 3 Config.TOPICS) empty_world
    = (inr items, w') /\
    QuickFetch.quick_fetch Examples.env_ok (Some (lit "arxiv")) None
      empty_world
    = (inr (QuickFetch.Items items), w').
Proof.
  destruct (@quick_fetch_one_category Examples.env_ok (Some (lit "arxiv"))
              None empty_world eq_refl) as (_ & _ & H).
  apply H. reflexivity.
Defined.

(** ** Order of the records *)


